(** * The treatment / demand model of the newsvendor game

    A shallow embedding of [utk-games/shorthorizon/treatment.py]:
    [UnitCosts], [DisributionParameters], [Treatment] and the
    [PydanticModel] helpers they inherit.

    Conventions of the embedding.

    - Python [float] and [numpy.float64] values are real numbers ([R]);
      [np.log], [np.sqrt] and [np.exp] are [ln], [sqrt] and [exp].  Rounding,
      overflow, underflow and the IEEE special values are outside the
      model, so no statement below rests on a sample being different from
      zero; where a
      statement needs a numpy function to be inside its domain, the domain
      condition is proved next to it.
    - Python [int] values are [Z]; the conversion of an [int] to a float is
      exact up to [2^53] and is a parameter beyond.
    - A Python exception is a [Raise] outcome; the state reached when the
      exception leaves the method is kept, because attribute assignments made
      before a [raise] stay visible to the caller.
    - [scipy.stats.norm.ppf] is a section variable: the inverse of the
      standard normal distribution function is not defined in the standard
      library of real numbers.
    - The global generator behind [np.random] is the sequence of standard
      normal variates it is going to produce; whether numpy can allocate
      an array of a given size, and how it fails if it cannot, is part of
      the state of numpy as well. *)

From Stdlib Require Import ZArith QArith Qreals Reals List Ascii String Bool Lia Lra.
Import ListNotations.

Set Warnings "-register-all".

(** ** Outcomes of Python code *)

Inductive exn : Type :=
| IndexError
| TypeError
| ZeroDivisionError
| ArithmeticError
| AssertionError
| ValueError
| ValidationError
| MemoryError
| OverflowError.

Inductive result (A : Type) : Type :=
| Ok (a : A)
| Raise (e : exn).

Arguments Ok {A} a.
Arguments Raise {A} e.

(** ** Python values

    The values that can sit in a dynamically typed slot of the program: the
    [idx] attribute of a treatment, the [size] argument of [get_demand_rvs],
    the members of a decoded JSON document.  [PyClass] is a class object. *)

Inductive pyval : Type :=
| PyNone
| PyBool (b : bool)
| PyInt (z : Z)
| PyFloat (r : R)
| PyStr (s : string)
| PyList (l : list pyval)
| PyDict (d : list (string * pyval))
| PyClass (name : string).

(** [v == k] for an integer literal [k].  [bool] is a subclass of [int]
    ([True == 1]); a float compares by value; every other type is unequal. *)
Definition py_eq_int (v : pyval) (k : Z) : bool :=
  match v with
  | PyInt z => (z =? k)%Z
  | PyBool b => ((if b then 1 else 0) =? k)%Z
  | PyFloat r => if Req_dec_T r (IZR k) then true else false
  | _ => false
  end.

(** [l[v]]: an [int] (or [bool]) subscript, negative subscripts counting from
    the end; [IndexError] out of range, [TypeError] for any other type. *)
Definition list_getitem {A} (l : list A) (v : pyval) : result A :=
  let at_index (z : Z) :=
    let n := Z.of_nat (List.length l) in
    let z' := if (z <? 0)%Z then (z + n)%Z else z in
    if ((0 <=? z') && (z' <? n))%Z
    then match nth_error l (Z.to_nat z') with
         | Some a => Ok a
         | None => Raise IndexError
         end
    else Raise IndexError in
  match v with
  | PyInt z => at_index z
  | PyBool b => at_index (if b then 1 else 0)%Z
  | _ => Raise TypeError
  end.

(** [a / b] on two Python ints: true division, a float. *)
Definition int_truediv (a b : Z) : result R :=
  if (b =? 0)%Z then Raise ZeroDivisionError else Ok (IZR a / IZR b)%R.

(** ** pydantic: which class attributes are fields

    [ModelMetaclass.__new__] walks the annotations of the class body.  A name
    that starts with an underscore is not a field.  An annotated name whose
    class-body value is itself a class (an instance of [type]) is left
    untouched, that is, it stays a plain class attribute and is not a field,
    unless the annotation is [Type[...]]. *)

Inductive class_default : Type :=
| NoDefault
| ValueDefault
| TypeDefault (name : string).

Record class_attr : Type := mkAttr {
  attr_name : string;
  annotation_is_Type : bool;
  attr_default : class_default
}.

Definition is_valid_field (name : string) : bool :=
  match name with
  | String c _ => negb (Ascii.eqb c "_"%char)
  | EmptyString => true
  end.

Definition is_untouched (d : class_default) : bool :=
  match d with TypeDefault _ => true | _ => false end.

Definition collect_fields (body : list class_attr) : list string :=
  map attr_name
      (filter (fun a => is_valid_field (attr_name a)
                        && negb (is_untouched (attr_default a)
                                 && negb (annotation_is_Type a)))
              body).

(** ** DISTRIBUTIONS *)

Record Distribution : Type := mkDistribution {
  natural_mean : Z;
  natural_sigma : Z
}.

Definition DISTRIBUTIONS : list Distribution :=
  [ mkDistribution 100 50;
    mkDistribution 100 100;
    mkDistribution 500 150;
    mkDistribution 500 150;   (* 4th gets different costs *)
    mkDistribution 100 50;
    mkDistribution 100 100 ].

(** ** Currency

    Modelled from the spec: [otree.api.Currency] is not part of the sources.
    The spec computes with currency amounts exactly
    ([cf = (25-14)/((25-14)+(14-6)) = 11/19]), so an amount is a rational
    number, [+], [-] and [/] are exact, and [float(c)] is the real number it
    denotes.  Dividing by a zero amount raises. *)

Definition Currency : Type := Q.

Definition currency_div (a b : Currency) : result Currency :=
  if Qeq_bool b 0 then Raise ArithmeticError else Ok (a / b)%Q.

Definition float_of_currency (c : Currency) : R := Q2R c.

(** ** UnitCosts *)

Record UnitCosts : Type := mkUnitCosts {
  rcpu : Currency;  (* retail cost / unit *)
  wcpu : Currency;  (* wholesale cost / unit *)
  scpu : Currency   (* salvage cost / unit *)
}.

Definition UnitCosts_body : list class_attr :=
  [ mkAttr "rcpu" false ValueDefault;
    mkAttr "wcpu" false ValueDefault;
    mkAttr "scpu" false ValueDefault ].

Definition UnitCosts_default : UnitCosts :=
  mkUnitCosts (25 # 1) (14 # 1) (6 # 1).

Definition UnitCosts_alternate : UnitCosts :=
  mkUnitCosts (24 # 1) (11 # 2) (5 # 1).

(** [PydanticModel.tuple] on a [UnitCosts]: the field values in field
    order. *)
Definition UnitCosts_tuple (u : UnitCosts) : Currency * Currency * Currency :=
  (rcpu u, wcpu u, scpu u).

(** ** DisributionParameters *)

Record DisributionParameters : Type := mkDisributionParameters {
  mu : R;
  sigma : R
}.

Definition DisributionParameters_tuple (p : DisributionParameters) : R * R :=
  (mu p, sigma p).

(** ** Treatment

    [Treatment] sets [extra = Extra.allow], so an instance is a dynamic
    attribute container.  The record is its instance dictionary: [idx_entry]
    is the entry for [idx] ([None] when the instance has none), [_mu],
    [_sigma] and [_demand_rvs] are the three private caches ([None] is
    Python's [None]), [extras] holds every other attribute.

    The class body reads [idx: int = conint(strict=True, ge=0, le=5)]: the
    annotation is [int] and the class-body value is the class that [conint]
    returns. *)

Record Treatment : Type := mkTreatment {
  idx_entry : option pyval;
  _mu : option R;
  _sigma : option R;
  _demand_rvs : list R;
  extras : list (string * pyval)
}.

Definition Treatment_body : list class_attr :=
  [ mkAttr "idx" false (TypeDefault "ConstrainedIntValue");
    mkAttr "_mu" false ValueDefault;
    mkAttr "_sigma" false ValueDefault;
    mkAttr "_demand_rvs" false ValueDefault ].

Definition Treatment_fields : list string := collect_fields Treatment_body.

(** [self.idx]: the instance entry, else the class attribute. *)
Definition idx (self : Treatment) : pyval :=
  match idx_entry self with
  | Some v => v
  | None => PyClass "ConstrainedIntValue"
  end.

(** [Treatment(idx=v)]: [idx] is not among the fields, so the keyword is
    stored as it is, as an extra attribute. *)
Definition Treatment_init (v : pyval) : Treatment :=
  mkTreatment (Some v) None None [] [].

(** [UnitCosts.from_treatment] *)
Definition UnitCosts_from_treatment (treatment : Treatment) : UnitCosts :=
  if py_eq_int (idx treatment) 3
  then UnitCosts_alternate
  else UnitCosts_default.

(** [DisributionParameters.from_treatment] *)
Definition DisributionParameters_from_treatment (treatment : Treatment)
  : result DisributionParameters :=
  match list_getitem DISTRIBUTIONS (idx treatment) with
  | Raise e => Raise e
  | Ok d =>
      let natural_mean := natural_mean d in
      let natural_sigma := natural_sigma d in
      (* method of moments *)
      let mu := ln (IZR (natural_mean ^ 2)
                    / sqrt (IZR (natural_sigma ^ 2 + natural_mean ^ 2)))%R in
      match int_truediv (natural_sigma ^ 2) (natural_mean ^ 2) with
      | Raise e => Raise e
      | Ok ratio =>
          let sigma := sqrt (ln (ratio + 1))%R in
          Ok (mkDisributionParameters mu sigma)
      end
  end.

(** ** Serialization

    A blob is what [json.loads] makes of the text handed to
    [Treatment.from_json]: text that is not JSON, or a decoded JSON object,
    a dictionary in which a key occurs once.  JSON documents that are not
    objects, and objects that name one of the three private caches, are
    outside the model. *)

Inductive blob : Type :=
| Malformed
| JsonObject (members : list (string * pyval)).

Fixpoint dict_get (key : string) (d : list (string * pyval)) : option pyval :=
  match d with
  | [] => None
  | (k, v) :: d' => if String.eqb k key then Some v else dict_get key d'
  end.

Definition dict_del (key : string) (d : list (string * pyval))
  : list (string * pyval) :=
  filter (fun kv => negb (String.eqb (fst kv) key)) d.

(** The instance dictionary [self.__dict__]. *)
Definition instance_dict (self : Treatment) : list (string * pyval) :=
  (match idx_entry self with Some v => [("idx"%string, v)] | None => [] end)
  ++ extras self
  ++ (match _mu self with Some m => [("_mu"%string, PyFloat m)] | None => [] end)
  ++ (match _sigma self with
      | Some s => [("_sigma"%string, PyFloat s)]
      | None => []
      end)
  ++ (match _demand_rvs self with
      | [] => []
      | l => [("_demand_rvs"%string, PyList (map PyFloat l))]
      end).

(** What [json.dumps] can write with pydantic's encoder: numbers, strings,
    [None], booleans, and lists and dictionaries of these; for a class it
    raises [TypeError]. *)
Fixpoint serializable (v : pyval) : bool :=
  match v with
  | PyClass _ => false
  | PyList l => forallb serializable l
  | PyDict d =>
      forallb (fun kv => match kv with (_, x) => serializable x end) d
  | _ => true
  end.

(** [PydanticModel.json], with every argument but [include] at its default:
    [include or set(self.__fields__)] selects the keys, and the entries of
    the instance dictionary under these keys are written out, [TypeError]
    if one of them cannot be.  The result is the text, as the blob it
    decodes to. *)
Definition json (self : Treatment) (include : option (list string))
  : result blob :=
  let include :=
    match include with
    | Some (k :: ks) => k :: ks
    | _ => Treatment_fields
    end in
  let members :=
    filter (fun kv => existsb (String.eqb (fst kv)) include)
           (instance_dict self) in
  if forallb (fun kv => serializable (snd kv)) members
  then Ok (JsonObject members)
  else Raise TypeError.

(** [Treatment.from_json]: [Treatment.parse_raw(json)].  Text that does not
    decode raises [ValidationError].  The members of a decoded object are
    the keyword arguments of [Treatment(...)]; [Treatment] has no fields, so
    none is validated and each becomes an attribute of the instance. *)
Definition from_json (json : blob) : result Treatment :=
  match json with
  | Malformed => Raise ValidationError
  | JsonObject members =>
      Ok (mkTreatment (dict_get "idx" members) None None []
                      (dict_del "idx" members))
  end.

(** ** The state the methods run in

    [self] is the treatment the method is called on; [np_random] is the
    state of numpy: [variates] is the global generator, [variates k] the
    [k]-th standard normal variate it will hand out next, and [np_empty n]
    tells what becomes of the request for an array of [n] floats: it is
    allocated, or numpy raises [ValueError] (the dimension is more than
    numpy can index) or [MemoryError]. *)

Inductive allocation : Type :=
| Allocated
| DimensionExceeded
| OutOfMemory.

Record numpy_state : Type := mkNumpy {
  variates : nat -> R;
  np_empty : Z -> allocation
}.

Record world : Type := mkWorld {
  self : Treatment;
  np_random : numpy_state
}.

Definition M (A : Type) : Type := world -> result A * world.

Definition ret {A} (a : A) : M A := fun w => (Ok a, w).

Definition raise {A} (e : exn) : M A := fun w => (Raise e, w).

Definition bind {A B} (m : M A) (k : A -> M B) : M B :=
  fun w =>
    match m w with
    | (Ok a, w') => k a w'
    | (Raise e, w') => (Raise e, w')
    end.

Declare Scope py_scope.
Delimit Scope py_scope with py.
Notation "x <- m ;; k" := (bind m (fun x => k))
  (at level 61, m at next level, right associativity) : py_scope.
Notation "m ;; k" := (bind m (fun _ => k))
  (at level 61, right associativity) : py_scope.
Open Scope py_scope.

Definition lift {A} (r : result A) : M A := fun w => (r, w).

Definition get_self : M Treatment := fun w => (Ok (self w), w).

Definition modify_self (f : Treatment -> Treatment) : M unit :=
  fun w => (Ok tt, mkWorld (f (self w)) (np_random w)).

Definition set_mu (v : option R) : M unit :=
  modify_self (fun t =>
    mkTreatment (idx_entry t) v (_sigma t) (_demand_rvs t) (extras t)).

Definition set_sigma (v : option R) : M unit :=
  modify_self (fun t =>
    mkTreatment (idx_entry t) (_mu t) v (_demand_rvs t) (extras t)).

Definition set_demand_rvs (v : list R) : M unit :=
  modify_self (fun t =>
    mkTreatment (idx_entry t) (_mu t) (_sigma t) v (extras t)).

(** [DisributionParameters(mu=a, sigma=b)]: both fields are required floats,
    [None] does not validate. *)
Definition DisributionParameters_init (a b : option R)
  : result DisributionParameters :=
  match a, b with
  | Some m, Some s => Ok (mkDisributionParameters m s)
  | _, _ => Raise ValidationError
  end.

(** [x *= k] on an attribute that holds a float or [None]. *)
Definition imul (x : option R) (k : R) : result (option R) :=
  match x with
  | Some r => Ok (Some (r * k)%R)
  | None => Raise TypeError
  end.

(** A float argument handed to numpy. *)
Definition float_arg (x : option R) : result R :=
  match x with
  | Some r => Ok r
  | None => Raise TypeError
  end.

(** [np.random.lognormal(mean, sigma, size).tolist()]: [ValueError] for a
    negative [sigma]; then the array for the result is requested, which can
    fail; otherwise the next [size] standard normal variates [z], each
    turned into [exp(mean + sigma * z)], and the generator moves on by
    [size]. *)
Definition np_random_lognormal (mean sigma : R) (size : Z) : M (list R) :=
  fun w =>
    if Rlt_dec sigma 0 then (Raise ValueError, w)
    else
      match np_empty (np_random w) size with
      | DimensionExceeded => (Raise ValueError, w)
      | OutOfMemory => (Raise MemoryError, w)
      | Allocated =>
          let n := Z.to_nat size in
          (Ok (map (fun k => exp (mean + sigma * variates (np_random w) k)%R)
                   (seq 0 n)),
           mkWorld (self w)
                   (mkNumpy (fun k => variates (np_random w) (n + k)%nat)
                            (np_empty (np_random w))))
      end.

(** [Treatment.get_unit_costs] *)
Definition get_unit_costs : M UnitCosts :=
  self <- get_self ;;
  ret (UnitCosts_from_treatment self).

(** [Treatment.get_distribution_parameters] *)
Definition get_distribution_parameters : M DisributionParameters :=
  self <- get_self ;;
  (match _mu self, _sigma self with
   | Some _, Some _ => ret tt
   | _, _ =>
       p <- lift (DisributionParameters_from_treatment self) ;;
       let '(m, s) := DisributionParameters_tuple p in
       set_mu (Some m) ;;
       set_sigma (Some s)
   end) ;;
  self <- get_self ;;
  lift (DisributionParameters_init (_mu self) (_sigma self)).

(** The [assert] of [get_demand_rvs]:
    [type(size) is int and size > 0]. *)
Definition assert_positive_int (size : pyval) : M Z :=
  match size with
  | PyInt z => if (z >? 0)%Z then ret z else raise AssertionError
  | _ => raise AssertionError
  end.

(** [Treatment.get_demand_rvs]: samples from the applicable treatment
    distribution. *)
Definition get_demand_rvs (size : pyval) (disrupt : bool) : M (list R) :=
  let size := match size with PyNone => PyInt 10000 | _ => size end in
  size <- assert_positive_int size ;;
  self <- get_self ;;
  if (Z.of_nat (List.length (_demand_rvs self)) =? size)%Z && negb disrupt
  then ret (_demand_rvs self)
  else
    p <- get_distribution_parameters ;;
    let '(mu, sigma) := DisributionParameters_tuple p in
    (if disrupt
     then
       (* transform mu & sigma *)
       self <- get_self ;;
       s <- lift (imul (_sigma self) 2) ;;
       set_sigma s ;;
       self <- get_self ;;
       m <- lift (imul (_mu self) 1) ;;
       set_mu m
     else ret tt) ;;
    self <- get_self ;;
    m <- lift (float_arg (_mu self)) ;;
    s <- lift (float_arg (_sigma self)) ;;
    rvs <- np_random_lognormal m s size ;;
    set_demand_rvs rvs ;;
    self <- get_self ;;
    ret (_demand_rvs self).

Section DecisionEngine.

(** [scipy.stats.norm.ppf] *)
Variable norm_ppf : R -> R.

(** [Treatment.get_optimal_order_quantity] *)
Definition get_optimal_order_quantity : M R :=
  u <- get_unit_costs ;;
  let '(rcpu, wcpu, scpu) := UnitCosts_tuple u in
  let overage_cost := (wcpu - scpu)%Q in
  let underage_cost := (rcpu - wcpu)%Q in
  q <- lift (currency_div underage_cost (underage_cost + overage_cost)%Q) ;;
  let cf := float_of_currency q in
  p <- get_distribution_parameters ;;
  let '(mu, sigma) := DisributionParameters_tuple p in
  let natural_mean := exp (mu + (1 / 2) * sigma ^ 2)%R in
  let natural_sigma :=
    sqrt ((exp (sigma ^ 2) - 1) * exp (2 * mu + sigma ^ 2))%R in
  ret (natural_mean * exp (norm_ppf cf * sigma))%R.


(** *** Sequences of method calls on one treatment *)

Inductive call : Type :=
| CallGetUnitCosts
| CallGetDistributionParameters
| CallGetOptimalOrderQuantity
| CallGetDemandRvs (size : pyval) (disrupt : bool).

(** The state a call leaves behind, whether it returns or raises. *)
Definition after (c : call) (w : world) : world :=
  match c with
  | CallGetUnitCosts => snd (get_unit_costs w)
  | CallGetDistributionParameters => snd (get_distribution_parameters w)
  | CallGetOptimalOrderQuantity => snd (get_optimal_order_quantity w)
  | CallGetDemandRvs size disrupt => snd (get_demand_rvs size disrupt w)
  end.

Definition run (cs : list call) (w : world) : world :=
  fold_left (fun w c => after c w) cs w.

(** A size the [assert] of [get_demand_rvs] lets through: a positive
    [int], or [None], which stands for the default. *)
Definition valid_size (size : pyval) : bool :=
  match size with
  | PyNone => true
  | PyInt z => (z >? 0)%Z
  | _ => false
  end.

Definition disrupts (c : call) : bool :=
  match c with
  | CallGetDemandRvs size true => valid_size size
  | _ => false
  end.

Definition disruptions (cs : list call) : nat :=
  List.length (filter disrupts cs).

(** The quantity the spec describes. *)
Definition order_quantity (cf mu sigma : R) : R :=
  (exp (mu + sigma ^ 2 / 2) * exp (norm_ppf cf * sigma))%R.

(** Following the spec's words, "the log-normal quantile at probability
    [p]": the quantile function of the log-normal distribution with the
    given location and scale, written with the standard normal quantile
    function. *)
Definition lognormal_quantile (location scale p : R) : R :=
  exp (location + scale * norm_ppf p)%R.

(** The factor a call applies to [sigma]. *)
Definition sigma_factor (c : call) : R :=
  if disrupts c then 2%R else 1%R.

End DecisionEngine.

(** ** The formulas of the specification, over the reals *)

(** [mu = ln(natural_mean² / sqrt(natural_sigma² + natural_mean²))] *)
Definition method_of_moments_mu (m s : R) : R :=
  ln (m ^ 2 / sqrt (s ^ 2 + m ^ 2))%R.

(** [sigma = sqrt(ln(natural_sigma² / natural_mean² + 1))] *)
Definition method_of_moments_sigma (m s : R) : R :=
  sqrt (ln (s ^ 2 / m ^ 2 + 1))%R.

(** [cf = (rcpu - wcpu) / ((rcpu - wcpu) + (wcpu - scpu))] *)
Definition critical_fractile (u : UnitCosts) : R :=
  ((Q2R (rcpu u) - Q2R (wcpu u))
   / ((Q2R (rcpu u) - Q2R (wcpu u)) + (Q2R (wcpu u) - Q2R (scpu u))))%R.

(** ** Well-formed treatments *)

(** A treatment as [Treatment.choose] makes it, before any method ran. *)
Definition fresh (i : Z) (g : numpy_state) : world :=
  mkWorld (Treatment_init (PyInt i)) g.

(** The index is one of the six profiles and a cached [sigma] is not
    negative. *)
Definition valid_treatment (t : Treatment) : Prop :=
  (exists i, idx t = PyInt i /\ (0 <= i <= 5)%Z)
  /\ (forall s, _sigma t = Some s -> (0 <= s)%R).

(** The parameters are cached as [m] and [s]. *)
Definition cached (m s : R) (w : world) : Prop :=
  _mu (self w) = Some m /\ _sigma (self w) = Some s.

(** The state after the first, computing call. *)
Definition with_parameters (p : DisributionParameters) (w : world) : world :=
  mkWorld (mkTreatment (idx_entry (self w)) (Some (mu p)) (Some (sigma p))
                       (_demand_rvs (self w)) (extras (self w)))
          (np_random w).

(** The size the method works with once the default is filled in. *)
Definition resolved_size (size : pyval) : Z :=
  match size with
  | PyNone => 10000%Z
  | PyInt z => z
  | _ => 0%Z
  end.

(** [sigma] after the optional disruption step. *)
Definition disrupted (disrupt : bool) (s : R) : R :=
  if disrupt then (s * 2)%R else s.

(** The samples drawn from generator [g] with parameters [m] and [s]. *)
Definition lognormal_samples (g : nat -> R) (m s : R) (n : Z) : list R :=
  map (fun k => exp (m + s * g k)%R) (seq 0 (Z.to_nat n)).

(** The state once the parameters are there and the disruption step ran. *)
Definition with_sigma (s : R) (w : world) : world :=
  mkWorld (mkTreatment (idx_entry (self w)) (_mu (self w)) (Some s)
                       (_demand_rvs (self w)) (extras (self w)))
          (np_random w).

(** The state once the new samples are stored. *)
Definition with_samples (l : list R) (n : Z) (w : world) : world :=
  mkWorld (mkTreatment (idx_entry (self w)) (_mu (self w)) (_sigma (self w))
                       l (extras (self w)))
          (mkNumpy (fun k => variates (np_random w) (Z.to_nat n + k)%nat)
                   (np_empty (np_random w))).

(** The exception behind a failed allocation. *)
Definition allocation_error (a : allocation) : option exn :=
  match a with
  | Allocated => None
  | DimensionExceeded => Some ValueError
  | OutOfMemory => Some MemoryError
  end.

(** A numpy with the generator [z] and memory without end: only a
    dimension of [2^63] or more is refused. *)
Definition numpy_with (z : nat -> R) : numpy_state :=
  mkNumpy z (fun n => if (2 ^ 63 <=? n)%Z then DimensionExceeded
                      else Allocated).

(** ** Built-in operations on Python values *)

(** [bool(v)] *)
Definition py_truth (v : pyval) : bool :=
  match v with
  | PyNone => false
  | PyBool b => b
  | PyInt z => negb (z =? 0)%Z
  | PyFloat r => if Req_dec_T r 0 then false else true
  | PyStr s => negb (String.eqb s "")
  | PyList l => match l with [] => false | _ => true end
  | PyDict d => match d with [] => false | _ => true end
  | PyClass _ => true
  end.

(** [len(v)]: strings, lists and dictionaries have a length, nothing else
    has. *)
Definition py_len (v : pyval) : result Z :=
  match v with
  | PyStr s => Ok (Z.of_nat (String.length s))
  | PyList l => Ok (Z.of_nat (List.length l))
  | PyDict d => Ok (Z.of_nat (List.length d))
  | _ => Raise TypeError
  end.

(** [int(r)] on a float: truncation towards zero. *)
Definition py_trunc (r : R) : Z :=
  if Rle_dec 0 r then Int_part r else (- Int_part (- r))%Z.

(** A number: an [int] (a [bool] counts as one) or a [float]. *)
Inductive number : Type :=
| NInt (z : Z)
| NFloat (r : R).

Definition as_number (v : pyval) : option number :=
  match v with
  | PyInt z => Some (NInt z)
  | PyBool b => Some (NInt (if b then 1 else 0))
  | PyFloat r => Some (NFloat r)
  | _ => None
  end.

Definition number_value (n : number) : R :=
  match n with NInt z => IZR z | NFloat r => r end.

Section Builtins.

(** [int(s)] and [float(s)] on a string: the number the text denotes, [None]
    where Python raises [ValueError]. *)
Variable int_of_str : string -> option Z.
Variable float_of_str : string -> option R.

(** The float nearest to an [int] of more than 53 bits, [None] where the
    [int] is beyond the range of floats. *)
Variable round_int : Z -> option R.

(** An [int] as a float: exact up to [2^53], rounded beyond, and
    [OverflowError] beyond the range of floats. *)
Definition float_of_int (z : Z) : result R :=
  if (Z.abs z <=? 2 ^ 53)%Z then Ok (IZR z)
  else match round_int z with
       | Some r => Ok r
       | None => Raise OverflowError
       end.

Definition float_of_number (n : number) : result R :=
  match n with
  | NInt z => float_of_int z
  | NFloat r => Ok r
  end.

(** [a + b]: the sum of two numbers (an [int] when both are, a float when
    one is, the other converted to a float first), the concatenation of
    two strings or of two lists, [TypeError] for anything else. *)
Definition py_add (a b : pyval) : result pyval :=
  match a, b with
  | PyStr s, PyStr t => Ok (PyStr (s ++ t))
  | PyList l, PyList m => Ok (PyList (l ++ m))
  | _, _ =>
      match as_number a, as_number b with
      | Some (NInt x), Some (NInt y) => Ok (PyInt (x + y))
      | Some x, Some y =>
          match float_of_number x with
          | Raise e => Raise e
          | Ok r1 =>
              match float_of_number y with
              | Raise e => Raise e
              | Ok r2 => Ok (PyFloat (r1 + r2))
              end
          end
      | _, _ => Raise TypeError
      end
  end.

(** [int(v)] *)
Definition py_int (v : pyval) : result Z :=
  match v with
  | PyInt z => Ok z
  | PyBool b => Ok (if b then 1 else 0)%Z
  | PyFloat r => Ok (py_trunc r)
  | PyStr s =>
      match int_of_str s with Some z => Ok z | None => Raise ValueError end
  | _ => Raise TypeError
  end.

(** [float(v)] *)
Definition py_float (v : pyval) : result R :=
  match v with
  | PyInt z => float_of_int z
  | PyBool b => Ok (if b then 1 else 0)%R
  | PyFloat r => Ok r
  | PyStr s =>
      match float_of_str s with Some r => Ok r | None => Raise ValueError end
  | _ => Raise TypeError
  end.

(** ** The template filters of [models.py] *)

(** [_len]: the length, and for a value without a length [0] if it is
    falsy, [1] if not. *)
Definition _len (value : pyval) : Z :=
  match py_len value with
  | Ok n => n
  | Raise _ => if negb (py_truth value) then 0%Z else 1%Z
  end.

(** [isiterable]: [isinstance(value, Iterable)]. *)
Definition isiterable (value : pyval) : bool :=
  match value with
  | PyStr _ | PyList _ | PyDict _ => true
  | _ => false
  end.

(** The first [try] block of [add]: [Ok (Some v)] when it returns [v],
    [Ok None] when the [if] fails, [Raise] when something in it raises. *)
Definition add_as_ints (value other : pyval) : result (option pyval) :=
  match py_int value with
  | Raise e => Raise e
  | Ok a =>
      if py_eq_int value a
      then match py_int other with
           | Raise e => Raise e
           | Ok b =>
               if py_eq_int other b
               then match py_add value other with
                    | Raise e => Raise e
                    | Ok s => match py_int s with
                              | Raise e => Raise e
                              | Ok i => Ok (Some (PyInt i))
                              end
                    end
               else Ok None
           end
      else Ok None
  end.

(** The second [try] block of [add]. *)
Definition add_as_floats (value other : pyval) : result pyval :=
  match py_float value with
  | Raise e => Raise e
  | Ok x => match py_float other with
            | Raise e => Raise e
            | Ok y => Ok (PyFloat (x + y))
            end
  end.

(** [add]: each attempt is tried in turn, an exception moves on to the
    next, and the empty string is what is left. *)
Definition add (value other : pyval) : pyval :=
  match add_as_ints value other with
  | Ok (Some v) => v
  | _ =>
      match add_as_floats value other with
      | Ok v => v
      | Raise _ =>
          match py_add value other with
          | Ok v => v
          | Raise _ => PyStr ""
          end
      end
  end.

End Builtins.

(** ** PydanticModel.from_args *)

Fixpoint assoc_get {A} (key : string) (d : list (string * A)) : option A :=
  match d with
  | [] => None
  | (k, v) :: d' => if String.eqb k key then Some v else assoc_get key d'
  end.

(** [d[key] = v] *)
Fixpoint assoc_set {A} (key : string) (v : A) (d : list (string * A))
  : list (string * A) :=
  match d with
  | [] => [(key, v)]
  | (k, x) :: d' =>
      if String.eqb k key then (k, v) :: d' else (k, x) :: assoc_set key v d'
  end.

(** [d.update(dict(new))] *)
Definition assoc_update {A} (d new : list (string * A)) : list (string * A) :=
  fold_left (fun acc kv => assoc_set (fst kv) (snd kv) acc) new d.

(** [key in d] *)
Definition has_key {A} (key : string) (d : list (string * A)) : bool :=
  match assoc_get key d with Some _ => true | None => false end.

(** The keyword arguments [from_args] hands to the constructor: the fields
    no keyword names take the positional arguments, in field order. *)
Definition from_args_kwargs {A}
           (fields : list string) (args : list A) (kwargs : list (string * A))
  : list (string * A) :=
  let arg_fields := filter (fun f => negb (has_key f kwargs)) fields in
  assoc_update kwargs (combine arg_fields args).

Definition DisributionParameters_body : list class_attr :=
  [ mkAttr "mu" false NoDefault;
    mkAttr "sigma" false NoDefault ].

(** [DisributionParameters] called with keywords of float value: both fields are
    required, other keywords are ignored. *)
Definition DisributionParameters_new (kwargs : list (string * R))
  : result DisributionParameters :=
  match assoc_get "mu" kwargs, assoc_get "sigma" kwargs with
  | Some m, Some s => Ok (mkDisributionParameters m s)
  | _, _ => Raise ValidationError
  end.

(** [UnitCosts] called with keywords of currency value: a field without a keyword
    takes its default. *)
Definition UnitCosts_new (kwargs : list (string * Currency)) : UnitCosts :=
  let field name default :=
    match assoc_get name kwargs with Some c => c | None => default end in
  mkUnitCosts (field "rcpu"%string (rcpu UnitCosts_default))
              (field "wcpu"%string (wcpu UnitCosts_default))
              (field "scpu"%string (scpu UnitCosts_default)).

Definition DisributionParameters_from_args
           (args : list R) (kwargs : list (string * R))
  : result DisributionParameters :=
  DisributionParameters_new
    (from_args_kwargs (collect_fields DisributionParameters_body) args kwargs).

Definition UnitCosts_from_args
           (args : list Currency) (kwargs : list (string * Currency))
  : UnitCosts :=
  UnitCosts_new
    (from_args_kwargs (collect_fields UnitCosts_body) args kwargs).

(** ** Treatment.choose *)

(** [range(n)] *)
Definition py_range (n : Z) : list Z := map Z.of_nat (seq 0 (Z.to_nat n)).

(** [random.choice(seq)]: [seq[r]], where [r] is what the generator draws
    below [len(seq)]; an empty sequence raises [IndexError]. *)
Definition random_choice {A} (l : list A) (r : nat) : result A :=
  match nth_error l r with
  | Some a => Ok a
  | None => Raise IndexError
  end.

(** [Treatment.choose], with the draw of the generator as argument. *)
Definition choose (r : nat) : result Treatment :=
  match random_choice (py_range (Z.of_nat (List.length DISTRIBUTIONS))) r with
  | Ok i => Ok (Treatment_init (PyInt i))
  | Raise e => Raise e
  end.

(** ** initialize_game_history

    A row of the history; every entry is an [int] or [None]. *)

Record HistoryRow : Type := mkHistoryRow {
  period : Z;
  ou : option Z;
  du : option Z;
  su_before : option Z;
  su_after : option Z;
  ooq : option Z;
  revenue : option Z;
  cost : option Z;
  profit : option Z;
  cumulative_profit : option Z
}.

(** [initialize_game_history]; [C.ROUNDS_PER_GAME] is defined outside the
    sources and is an argument here. *)
Definition initialize_game_history (ROUNDS_PER_GAME : Z) : list HistoryRow :=
  map (fun i =>
         mkHistoryRow (i + 1) None None
                      (if (i =? 0)%Z then Some 0%Z else None)
                      None None None None None None)
      (py_range ROUNDS_PER_GAME).

(** ** Predicates used in the properties of the filters *)

(** [v] is a number whose value is the integer [a]. *)
Definition integral (v : pyval) (a : Z) : Prop :=
  v = PyInt a
  \/ (exists b : bool, v = PyBool b /\ a = if b then 1%Z else 0%Z)
  \/ v = PyFloat (IZR a).

(** [v] supports no [+] at all. *)
Definition unaddable (v : pyval) : Prop :=
  match v with
  | PyNone | PyDict _ | PyClass _ => True
  | _ => False
  end.

(** * Properties *)

Ltac unfold_py :=
  unfold get_demand_rvs, get_optimal_order_quantity,
    get_distribution_parameters, get_unit_costs, np_random_lognormal,
    assert_positive_int, set_demand_rvs, set_sigma, set_mu, modify_self,
    get_self, lift, bind, raise, ret in *.

Example Treatment_has_no_fields : Treatment_fields = [].
Proof. reflexivity. Qed.

Example UnitCosts_fields :
  collect_fields UnitCosts_body = ["rcpu"; "wcpu"; "scpu"]%string.
Proof. reflexivity. Qed.

(** *** The profile table *)

Lemma index_cases (i : Z) :
  (0 <= i <= 5)%Z ->
  i = 0%Z \/ i = 1%Z \/ i = 2%Z \/ i = 3%Z \/ i = 4%Z \/ i = 5%Z.
Proof. lia. Qed.

Lemma DISTRIBUTIONS_getitem (i : Z) :
  (0 <= i <= 5)%Z ->
  exists d, nth_error DISTRIBUTIONS (Z.to_nat i) = Some d
            /\ list_getitem DISTRIBUTIONS (PyInt i) = Ok d.
Proof.
  intros H.
  destruct (index_cases i H) as [-> | [-> | [-> | [-> | [-> | ->]]]]];
    eexists; split; reflexivity.
Qed.

Lemma DISTRIBUTIONS_positive (n : nat) (d : Distribution) :
  nth_error DISTRIBUTIONS n = Some d ->
  (0 < natural_mean d)%Z /\ (0 < natural_sigma d)%Z.
Proof.
  intros H.
  do 6 (destruct n as [| n]; [inversion H; subst; simpl; lia |]).
  destruct n; discriminate.
Qed.

(** [DisributionParameters.from_treatment] computes the method-of-moments
    fit of the table entry. *)
Lemma from_treatment_fit (t : Treatment) (i : Z) (d : Distribution) :
  idx t = PyInt i ->
  (0 <= i <= 5)%Z ->
  nth_error DISTRIBUTIONS (Z.to_nat i) = Some d ->
  DisributionParameters_from_treatment t
  = Ok (mkDisributionParameters
          (method_of_moments_mu (IZR (natural_mean d)) (IZR (natural_sigma d)))
          (method_of_moments_sigma (IZR (natural_mean d))
                                   (IZR (natural_sigma d)))).
Proof.
  intros Hidx Hi Hd.
  unfold DisributionParameters_from_treatment.
  rewrite Hidx.
  destruct (DISTRIBUTIONS_getitem i Hi) as (d' & Hd' & ->).
  assert (d' = d) by congruence; subst d'.
  destruct (DISTRIBUTIONS_positive _ d Hd) as [Hm Hs].
  unfold int_truediv.
  destruct (Z.eqb_spec (natural_mean d ^ 2) 0) as [E | _]; [nia |].
  unfold method_of_moments_mu, method_of_moments_sigma.
  rewrite plus_IZR, !pow_IZR.
  reflexivity.
Qed.

(** *** The method-of-moments fit stays inside the domains of [ln] and
    [sqrt], and gives back the natural mean *)

Section MethodOfMoments.

Variables m s : R.
Hypothesis m_pos : (0 < m)%R.
Hypothesis s_pos : (0 < s)%R.

Lemma fit_sum_positive : (0 < s ^ 2 + m ^ 2)%R.
Proof. nra. Qed.

Lemma fit_log_argument_positive : (0 < m ^ 2 / sqrt (s ^ 2 + m ^ 2))%R.
Proof.
  apply Rdiv_lt_0_compat; [nra |].
  apply sqrt_lt_R0, fit_sum_positive.
Qed.

Lemma fit_ratio_above_one : (1 < s ^ 2 / m ^ 2 + 1)%R.
Proof.
  assert (0 < s ^ 2 / m ^ 2)%R by (apply Rdiv_lt_0_compat; nra).
  lra.
Qed.

Lemma fit_sqrt_argument_positive : (0 < ln (s ^ 2 / m ^ 2 + 1))%R.
Proof.
  rewrite <- ln_1. apply ln_increasing; [lra | apply fit_ratio_above_one].
Qed.

Lemma fit_sigma_positive : (0 < method_of_moments_sigma m s)%R.
Proof. apply sqrt_lt_R0, fit_sqrt_argument_positive. Qed.

Lemma ln_sqrt_half (a : R) : (0 < a)%R -> ln (sqrt a) = (ln a / 2)%R.
Proof.
  intros Ha.
  assert (Hs : (0 < sqrt a)%R) by now apply sqrt_lt_R0.
  assert (E : ln a = (ln (sqrt a) + ln (sqrt a))%R).
  { rewrite <- (ln_mult _ _ Hs Hs), sqrt_sqrt; [reflexivity | lra]. }
  lra.
Qed.

(** [exp(mu + sigma^2/2)], the natural mean the code computes back from the
    fitted parameters, is the natural mean of the table entry. *)
Lemma natural_mean_recovered :
  exp (method_of_moments_mu m s + method_of_moments_sigma m s ^ 2 / 2) = m.
Proof.
  unfold method_of_moments_mu, method_of_moments_sigma.
  pose proof fit_sum_positive as HA.
  pose proof fit_sqrt_argument_positive as HL.
  assert (Hm2 : (0 < m ^ 2)%R) by nra.
  assert (HsA : (0 < sqrt (s ^ 2 + m ^ 2))%R) by now apply sqrt_lt_R0.
  rewrite pow2_sqrt by lra.
  replace (s ^ 2 / m ^ 2 + 1)%R with ((s ^ 2 + m ^ 2) * / m ^ 2)%R
    by (field; lra).
  rewrite (ln_mult _ _ HA (Rinv_0_lt_compat _ Hm2)), (ln_Rinv _ Hm2).
  unfold Rdiv at 1.
  rewrite (ln_mult _ _ Hm2 (Rinv_0_lt_compat _ HsA)), (ln_Rinv _ HsA).
  rewrite (ln_sqrt_half _ HA).
  replace (m ^ 2)%R with (m * m)%R by ring.
  rewrite (ln_mult _ _ m_pos m_pos).
  replace (ln m + ln m + - (ln (s ^ 2 + m * m) / 2)
           + (ln (s ^ 2 + m * m) + - (ln m + ln m)) / 2)%R
    with (ln m) by field.
  now apply exp_ln.
Qed.

End MethodOfMoments.

Lemma DISTRIBUTIONS_positive_reals (n : nat) (d : Distribution) :
  nth_error DISTRIBUTIONS n = Some d ->
  (0 < IZR (natural_mean d))%R /\ (0 < IZR (natural_sigma d))%R.
Proof.
  intros H. destruct (DISTRIBUTIONS_positive n d H) as [Hm Hs].
  split; now apply IZR_lt.
Qed.

(** *** get_distribution_parameters *)

Lemma parameters_cached (m s : R) (w : world) :
  cached m s w ->
  get_distribution_parameters w = (Ok (mkDisributionParameters m s), w).
Proof.
  intros [Hm Hs]. unfold_py. rewrite Hm, Hs. simpl. rewrite Hm, Hs.
  reflexivity.
Qed.

Lemma parameters_first_call (p : DisributionParameters) (w : world) :
  _mu (self w) = None \/ _sigma (self w) = None ->
  DisributionParameters_from_treatment (self w) = Ok p ->
  get_distribution_parameters w = (Ok p, with_parameters p w).
Proof.
  intros Hnone Hp. unfold_py. rewrite Hp.
  destruct p as [m s].
  destruct (_mu (self w)) as [m0 |], (_sigma (self w)) as [s0 |];
    try reflexivity.
  destruct Hnone; discriminate.
Qed.

Lemma parameters_first_call_raises (e : exn) (w : world) :
  _mu (self w) = None \/ _sigma (self w) = None ->
  DisributionParameters_from_treatment (self w) = Raise e ->
  get_distribution_parameters w = (Raise e, w).
Proof.
  intros Hnone Hp. unfold_py. rewrite Hp.
  destruct (_mu (self w)) as [m0 |], (_sigma (self w)) as [s0 |];
    try reflexivity.
  destruct Hnone; discriminate.
Qed.

Lemma cache_cases (w : world) :
  (exists m s, cached m s w)
  \/ (_mu (self w) = None \/ _sigma (self w) = None).
Proof.
  unfold cached.
  destruct (_mu (self w)) as [m |], (_sigma (self w)) as [s |]; eauto.
Qed.

(** What a call of [get_distribution_parameters] can do: answer from the
    cache, fill the cache, or fail without a trace. *)
Lemma parameters_cases (w : world) :
  (exists m s, cached m s w
     /\ get_distribution_parameters w = (Ok (mkDisributionParameters m s), w))
  \/ (exists p, DisributionParameters_from_treatment (self w) = Ok p
        /\ get_distribution_parameters w = (Ok p, with_parameters p w))
  \/ (exists e, get_distribution_parameters w = (Raise e, w)).
Proof.
  destruct (cache_cases w) as [(m & s & Hc) | Hnone].
  - left. exists m, s. split; [assumption | now apply parameters_cached].
  - right.
    destruct (DisributionParameters_from_treatment (self w)) as [p | e] eqn:Hp.
    + left. exists p. split; [reflexivity | now apply parameters_first_call].
    + right. exists e. now apply parameters_first_call_raises.
Qed.

Lemma with_parameters_cached (p : DisributionParameters) (w : world) :
  cached (mu p) (sigma p) (with_parameters p w).
Proof. split; reflexivity. Qed.

(** A call that returns leaves its answer in the cache, and touches neither
    the index, nor the samples, nor the generator. *)
Lemma parameters_returned (w w' : world) (p : DisributionParameters) :
  get_distribution_parameters w = (Ok p, w') ->
  cached (mu p) (sigma p) w'
  /\ idx_entry (self w') = idx_entry (self w)
  /\ _demand_rvs (self w') = _demand_rvs (self w)
  /\ np_random w' = np_random w.
Proof.
  intros H.
  destruct (parameters_cases w)
    as [(m & s & Hc & E) | [(q & Hq & E) | (e & E)]];
    rewrite E in H; inversion H; subst; clear H.
  - repeat split; try reflexivity; apply Hc.
  - repeat split; reflexivity.
Qed.

Lemma parameters_idempotent (w w' : world) (p : DisributionParameters) :
  get_distribution_parameters w = (Ok p, w') ->
  get_distribution_parameters w' = (Ok p, w').
Proof.
  intros H. destruct (parameters_returned w w' p H) as (Hc & _).
  destruct p as [m s]. now apply parameters_cached.
Qed.

(** A treatment with one of the six indices always gets its parameters. *)
Lemma parameters_available (w : world) :
  valid_treatment (self w) ->
  exists p w',
    get_distribution_parameters w = (Ok p, w') /\ (0 <= sigma p)%R.
Proof.
  intros [(i & Hidx & Hi) Hs].
  destruct (parameters_cases w)
    as [(m & s & Hc & E) | [(q & Hq & E) | (e & E)]].
  - exists (mkDisributionParameters m s), w. split; [exact E |].
    apply Hs, Hc.
  - exists q, (with_parameters q w). split; [exact E |].
    destruct (DISTRIBUTIONS_getitem i Hi) as (d & Hd & _).
    rewrite (from_treatment_fit _ i d Hidx Hi Hd) in Hq.
    inversion Hq; subst; simpl. apply sqrt_pos.
  - exfalso.
    destruct (cache_cases w) as [(m & s & Hc) | Hnone].
    + rewrite (parameters_cached m s w Hc) in E. discriminate.
    + destruct (DISTRIBUTIONS_getitem i Hi) as (d & Hd & _).
      pose proof (from_treatment_fit _ i d Hidx Hi Hd) as Hfit.
      rewrite (parameters_first_call _ w Hnone Hfit) in E. discriminate.
Qed.

(** *** get_demand_rvs *)

Lemma demand_invalid_size (size : pyval) (disrupt : bool) (w : world) :
  valid_size size = false ->
  get_demand_rvs size disrupt w = (Raise AssertionError, w).
Proof.
  intros H. unfold get_demand_rvs, assert_positive_int, bind, raise.
  destruct size; simpl in H; try discriminate; try reflexivity.
  rewrite H. reflexivity.
Qed.

Lemma valid_size_resolved (size : pyval) :
  valid_size size = true ->
  (0 < resolved_size size)%Z
  /\ forall (k : Z -> M (list R)) (w : world),
       bind (assert_positive_int
               (match size with PyNone => PyInt 10000 | _ => size end)) k w
       = k (resolved_size size) w.
Proof.
  intros H. destruct size; simpl in H; try discriminate.
  - split; [reflexivity | reflexivity].
  - split; [simpl; apply Z.gtb_lt in H; lia |].
    intros k w. unfold bind, assert_positive_int. simpl.
    rewrite H. reflexivity.
Qed.

Lemma demand_cached (size : pyval) (w : world) :
  valid_size size = true ->
  Z.of_nat (List.length (_demand_rvs (self w))) = resolved_size size ->
  get_demand_rvs size false w = (Ok (_demand_rvs (self w)), w).
Proof.
  intros Hv Hlen. unfold get_demand_rvs.
  destruct (valid_size_resolved size Hv) as [_ ->].
  unfold bind at 1. unfold get_self at 1.
  simpl. rewrite Hlen, Z.eqb_refl. reflexivity.
Qed.

Lemma demand_parameters_raise
      (size : pyval) (disrupt : bool) (w : world) (e : exn) :
  valid_size size = true ->
  (Z.of_nat (List.length (_demand_rvs (self w))) =? resolved_size size)%Z
    && negb disrupt = false ->
  get_distribution_parameters w = (Raise e, w) ->
  get_demand_rvs size disrupt w = (Raise e, w).
Proof.
  intros Hv Hnot Hp. unfold get_demand_rvs.
  destruct (valid_size_resolved size Hv) as [_ ->].
  unfold bind at 1. unfold get_self at 1.
  simpl. rewrite Hnot.
  unfold bind at 1. rewrite Hp. reflexivity.
Qed.

Lemma demand_draw
      (size : pyval) (disrupt : bool) (w w1 : world)
      (p : DisributionParameters) :
  valid_size size = true ->
  (Z.of_nat (List.length (_demand_rvs (self w))) =? resolved_size size)%Z
    && negb disrupt = false ->
  get_distribution_parameters w = (Ok p, w1) ->
  let s := disrupted disrupt (sigma p) in
  let l := lognormal_samples (variates (np_random w1)) (mu p) s
                            (resolved_size size) in
  get_demand_rvs size disrupt w
  = if Rlt_dec s 0
    then (Raise ValueError, with_sigma s w1)
    else match allocation_error
                 (np_empty (np_random w1) (resolved_size size)) with
         | Some e => (Raise e, with_sigma s w1)
         | None =>
             (Ok l, with_samples l (resolved_size size) (with_sigma s w1))
         end.
Proof.
  intros Hv Hnot Hp s l. unfold get_demand_rvs.
  destruct (valid_size_resolved size Hv) as [_ ->].
  unfold bind at 1. unfold get_self at 1.
  simpl. rewrite Hnot.
  unfold bind at 1. rewrite Hp.
  destruct (parameters_returned w w1 p Hp) as ([Hm Hs] & _).
  subst s l. destruct p as [m s0]. simpl in *.
  destruct w1 as [[i1 m1 s1 r1 e1] g1]. simpl in *. subst m1 s1.
  destruct disrupt; unfold_py; simpl; unfold disrupted, with_sigma,
    with_samples, lognormal_samples; simpl; rewrite ?Rmult_1_r;
    (destruct (Rlt_dec _ 0); [reflexivity |]);
    destruct (np_empty g1 (resolved_size size)); reflexivity.
Qed.

(** *** get_unit_costs and the critical fractile *)

Lemma unit_costs_call (w : world) :
  get_unit_costs w = (Ok (UnitCosts_from_treatment (self w)), w).
Proof. reflexivity. Qed.

Lemma unit_costs_cases (t : Treatment) :
  UnitCosts_from_treatment t = UnitCosts_alternate
  \/ UnitCosts_from_treatment t = UnitCosts_default.
Proof.
  unfold UnitCosts_from_treatment.
  destruct (py_eq_int (idx t) 3); [left | right]; reflexivity.
Qed.

Lemma critical_fractile_default :
  critical_fractile UnitCosts_default = (11 / 19)%R.
Proof. unfold critical_fractile, Q2R. simpl. field. Qed.

Lemma critical_fractile_alternate :
  critical_fractile UnitCosts_alternate = (37 / 38)%R.
Proof. unfold critical_fractile, Q2R. simpl. field. Qed.

(** The quotient the code takes on currency amounts is the critical fractile
    of the spec. *)
Lemma currency_fractile (t : Treatment) :
  let u := UnitCosts_from_treatment t in
  exists q,
    currency_div (rcpu u - wcpu u)%Q
                 ((rcpu u - wcpu u) + (wcpu u - scpu u))%Q = Ok q
    /\ float_of_currency q = critical_fractile u.
Proof.
  intros u. subst u.
  destruct (unit_costs_cases t) as [-> | ->]; eexists; (split;
    [reflexivity |]).
  - rewrite critical_fractile_alternate.
    unfold float_of_currency, Q2R. simpl. field.
  - rewrite critical_fractile_default.
    unfold float_of_currency, Q2R. simpl. field.
Qed.

Lemma critical_fractile_in_unit_interval (t : Treatment) :
  (0 < critical_fractile (UnitCosts_from_treatment t) < 1)%R.
Proof.
  destruct (unit_costs_cases t) as [-> | ->].
  - rewrite critical_fractile_alternate. lra.
  - rewrite critical_fractile_default. lra.
Qed.

Section DecisionEngineFacts.

Variable norm_ppf : R -> R.

(** *** get_optimal_order_quantity *)

Lemma order_quantity_returned
      (w w1 : world) (p : DisributionParameters) :
  get_distribution_parameters w = (Ok p, w1) ->
  get_optimal_order_quantity norm_ppf w
  = (Ok (order_quantity norm_ppf
           (critical_fractile (UnitCosts_from_treatment (self w)))
           (mu p) (sigma p)),
     w1).
Proof.
  intros Hp.
  destruct (currency_fractile (self w)) as (q & Hq & Hcf).
  unfold get_optimal_order_quantity.
  unfold bind at 1. rewrite unit_costs_call.
  unfold UnitCosts_tuple.
  unfold bind at 1. unfold lift at 1. rewrite Hq.
  unfold bind at 1. rewrite Hp.
  unfold DisributionParameters_tuple, ret, order_quantity.
  rewrite Hcf.
  replace (mu p + 1 / 2 * sigma p ^ 2)%R with (mu p + sigma p ^ 2 / 2)%R
    by field.
  reflexivity.
Qed.

Lemma order_quantity_raises (w w1 : world) (e : exn) :
  get_distribution_parameters w = (Raise e, w1) ->
  get_optimal_order_quantity norm_ppf w = (Raise e, w1).
Proof.
  intros Hp.
  destruct (currency_fractile (self w)) as (q & Hq & Hcf).
  unfold get_optimal_order_quantity.
  unfold bind at 1. rewrite unit_costs_call.
  unfold UnitCosts_tuple.
  unfold bind at 1. unfold lift at 1. rewrite Hq.
  unfold bind at 1. rewrite Hp.
  reflexivity.
Qed.

Lemma order_quantity_positive (cf m s : R) :
  (0 < order_quantity norm_ppf cf m s)%R.
Proof. unfold order_quantity. apply Rmult_lt_0_compat; apply exp_pos. Qed.

End DecisionEngineFacts.

Section Calls.

Variable norm_ppf : R -> R.

(** *** Sequences of calls *)

Lemma parameters_fst (w : world) (p : DisributionParameters) :
  fst (get_distribution_parameters w) = Ok p ->
  exists w1, get_distribution_parameters w = (Ok p, w1).
Proof.
  destruct (get_distribution_parameters w) as [r w1]. simpl.
  intros ->. now exists w1.
Qed.

Lemma parameters_of_cached (m s : R) (w : world) :
  cached m s w ->
  fst (get_distribution_parameters w) = Ok (mkDisributionParameters m s).
Proof. intros H. now rewrite (parameters_cached m s w H). Qed.

(** One call: [mu] stays, [sigma] is doubled by a disrupting call and by
    no other. *)
Lemma after_parameters (c : call) (w : world) (p : DisributionParameters) :
  fst (get_distribution_parameters w) = Ok p ->
  fst (get_distribution_parameters (after norm_ppf c w))
  = Ok (mkDisributionParameters (mu p) (sigma p * sigma_factor c)).
Proof.
  intros H.
  assert (Hsame : mkDisributionParameters (mu p) (sigma p * 1) = p).
  { destruct p as [m s]. simpl. now rewrite Rmult_1_r. }
  destruct (parameters_fst w p H) as (w1 & Hp).
  pose proof (parameters_idempotent w w1 p Hp) as Hp1.
  destruct c as [| | | size disrupt]; unfold sigma_factor; simpl.
  - rewrite Hsame. exact H.
  - rewrite Hp. simpl. rewrite Hp1, Hsame. reflexivity.
  - rewrite (order_quantity_returned norm_ppf w w1 p Hp). simpl.
    rewrite Hp1, Hsame. reflexivity.
  - destruct (valid_size size) eqn:Hv.
    2:{ rewrite (demand_invalid_size size disrupt w Hv).
        destruct disrupt; simpl; rewrite Hsame; exact H. }
    destruct ((Z.of_nat (List.length (_demand_rvs (self w)))
               =? resolved_size size)%Z && negb disrupt) eqn:Hearly.
    + apply andb_prop in Hearly. destruct Hearly as [Hlen Hd].
      apply Z.eqb_eq in Hlen.
      destruct disrupt; [discriminate |].
      rewrite (demand_cached size w Hv Hlen). simpl.
      rewrite Hsame. exact H.
    + rewrite (demand_draw size disrupt w w1 p Hv Hearly Hp).
      destruct (parameters_returned w w1 p Hp) as ([Hm Hs] & _).
      (destruct (Rlt_dec (disrupted disrupt (sigma p)) 0);
         [| destruct (allocation_error _)]); simpl;
        apply parameters_of_cached; split; simpl; auto;
        destruct disrupt; simpl; f_equal; ring.
Qed.

Lemma disruptions_cons (c : call) (cs : list call) :
  disruptions (c :: cs)
  = ((if disrupts c then 1 else 0) + disruptions cs)%nat.
Proof. unfold disruptions. simpl. now destruct (disrupts c). Qed.

(** Any sequence of calls: [sigma] ends as [2^n] times the value it had,
    [n] the number of disrupting calls in the sequence. *)
Lemma run_parameters (cs : list call) :
  forall (w : world) (p : DisributionParameters),
    fst (get_distribution_parameters w) = Ok p ->
    fst (get_distribution_parameters (run norm_ppf cs w))
    = Ok (mkDisributionParameters
            (mu p) (2 ^ disruptions cs * sigma p)).
Proof.
  induction cs as [| c cs IH]; intros w p H.
  - simpl. rewrite Rmult_1_l. destruct p. exact H.
  - change (run norm_ppf (c :: cs) w)
      with (run norm_ppf cs (after norm_ppf c w)).
    rewrite (IH _ _ (after_parameters c w p H)). simpl.
    rewrite disruptions_cons. unfold sigma_factor.
    f_equal. f_equal.
    destruct (disrupts c); simpl; ring.
Qed.

End Calls.

(** *** Well-formed treatments stay well-formed *)

Lemma fresh_valid (i : Z) (g : numpy_state) :
  (0 <= i <= 5)%Z -> valid_treatment (self (fresh i g)).
Proof.
  intros Hi. split.
  - exists i. split; [reflexivity | exact Hi].
  - intros s Hs. discriminate.
Qed.

Lemma valid_transfer (w w' : world) :
  valid_treatment (self w) ->
  idx_entry (self w') = idx_entry (self w) ->
  (forall s, _sigma (self w') = Some s -> (0 <= s)%R) ->
  valid_treatment (self w').
Proof.
  intros [(i & Hidx & Hi) _] He Hs. split; [| exact Hs].
  exists i. split; [| exact Hi].
  unfold idx in *. rewrite He. exact Hidx.
Qed.

Lemma disrupted_nonneg (disrupt : bool) (s : R) :
  (0 <= s)%R -> (0 <= disrupted disrupt s)%R.
Proof. intros H. destruct disrupt; simpl; lra. Qed.

Lemma after_valid (norm_ppf : R -> R) (c : call) (w : world) :
  valid_treatment (self w) -> valid_treatment (self (after norm_ppf c w)).
Proof.
  intros Hv.
  destruct (parameters_available w Hv) as (p & w1 & Hp & Hs).
  destruct (parameters_returned w w1 p Hp) as ([_ Hc] & Hidx & _).
  assert (Hv1 : valid_treatment (self w1)).
  { apply (valid_transfer w w1 Hv Hidx).
    intros s E. rewrite Hc in E. inversion E; subst. exact Hs. }
  destruct c as [| | | size disrupt]; simpl.
  - exact Hv.
  - rewrite Hp. exact Hv1.
  - rewrite (order_quantity_returned norm_ppf w w1 p Hp). exact Hv1.
  - destruct (valid_size size) eqn:Hsz.
    2:{ now rewrite (demand_invalid_size size disrupt w Hsz). }
    destruct ((Z.of_nat (List.length (_demand_rvs (self w)))
               =? resolved_size size)%Z && negb disrupt) eqn:Hearly.
    + apply andb_prop in Hearly. destruct Hearly as [Hlen Hd].
      apply Z.eqb_eq in Hlen.
      destruct disrupt; [discriminate |].
      now rewrite (demand_cached size w Hsz Hlen).
    + rewrite (demand_draw size disrupt w w1 p Hsz Hearly Hp).
      pose proof (disrupted_nonneg disrupt (sigma p) Hs) as Hd.
      (destruct (Rlt_dec (disrupted disrupt (sigma p)) 0);
         [| destruct (allocation_error _)]); cbn [snd];
        apply (valid_transfer w1); auto;
        simpl; intros s E; inversion E; subst; exact Hd.
Qed.

Lemma run_valid (norm_ppf : R -> R) (cs : list call) :
  forall w, valid_treatment (self w) ->
            valid_treatment (self (run norm_ppf cs w)).
Proof.
  induction cs as [| c cs IH]; intros w Hv; [exact Hv |].
  apply (IH (after norm_ppf c w)). now apply after_valid.
Qed.

Lemma disruptions_app (cs1 cs2 : list call) :
  disruptions (cs1 ++ cs2) = (disruptions cs1 + disruptions cs2)%nat.
Proof.
  unfold disruptions. now rewrite filter_app, length_app.
Qed.

Lemma disruptions_repeat (size : pyval) (n : nat) :
  valid_size size = true ->
  disruptions (repeat (CallGetDemandRvs size true) n) = n.
Proof.
  intros Hv. induction n as [| n IH]; [reflexivity |].
  simpl repeat. rewrite disruptions_cons. simpl. rewrite Hv, IH.
  reflexivity.
Qed.

Lemma lognormal_samples_length (g : nat -> R) (m s : R) (n : Z) :
  (0 <= n)%Z -> Z.of_nat (List.length (lognormal_samples g m s n)) = n.
Proof.
  intros Hn. unfold lognormal_samples.
  rewrite length_map, length_seq. lia.
Qed.

(** *** What a call can do to the state *)

(** [get_distribution_parameters] either leaves the state or fills the
    cache. *)
Lemma parameters_state (w : world) :
  snd (get_distribution_parameters w) = w
  \/ exists p, snd (get_distribution_parameters w) = with_parameters p w.
Proof.
  destruct (parameters_cases w)
    as [(m & s & _ & E) | [(q & _ & E) | (e & E)]]; rewrite E; simpl; eauto.
Qed.

(** The ways [get_demand_rvs] can go. *)
Lemma demand_cases (size : pyval) (disrupt : bool) (w : world) :
  get_demand_rvs size disrupt w = (Raise AssertionError, w)
  \/ get_demand_rvs size disrupt w = (Ok (_demand_rvs (self w)), w)
     /\ Z.of_nat (List.length (_demand_rvs (self w))) = resolved_size size
     /\ valid_size size = true /\ disrupt = false
  \/ (exists e, get_demand_rvs size disrupt w = (Raise e, w)
                /\ get_distribution_parameters w = (Raise e, w))
  \/ (exists p w1,
         valid_size size = true
         /\ get_distribution_parameters w = (Ok p, w1)
         /\ let s := disrupted disrupt (sigma p) in
            let l := lognormal_samples (variates (np_random w1)) (mu p) s
                                       (resolved_size size) in
            get_demand_rvs size disrupt w
            = if Rlt_dec s 0
              then (Raise ValueError, with_sigma s w1)
              else match allocation_error
                           (np_empty (np_random w1) (resolved_size size)) with
                   | Some e => (Raise e, with_sigma s w1)
                   | None => (Ok l, with_samples l (resolved_size size)
                                                 (with_sigma s w1))
                   end).
Proof.
  destruct (valid_size size) eqn:Hv.
  2:{ left. now apply demand_invalid_size. }
  right.
  destruct ((Z.of_nat (List.length (_demand_rvs (self w)))
             =? resolved_size size)%Z && negb disrupt) eqn:Hearly.
  - left. apply andb_prop in Hearly. destruct Hearly as [Hlen Hd].
    apply Z.eqb_eq in Hlen. destruct disrupt; [discriminate |].
    repeat split; try assumption. now apply demand_cached.
  - right.
    destruct (parameters_cases w)
      as [(m & s & _ & E) | [(q & _ & E) | (e & E)]].
    + right. exists (mkDisributionParameters m s), w.
      split; [reflexivity |]. split; [exact E |].
      exact (demand_draw size disrupt w w _ Hv Hearly E).
    + right. exists q, (with_parameters q w).
      split; [reflexivity |]. split; [exact E |].
      exact (demand_draw size disrupt w _ _ Hv Hearly E).
    + left. exists e. split; [| exact E].
      now apply demand_parameters_raise.
Qed.

Lemma order_quantity_state (norm_ppf : R -> R) (w : world) :
  snd (get_optimal_order_quantity norm_ppf w)
  = snd (get_distribution_parameters w).
Proof.
  destruct (get_distribution_parameters w) as [[p | e] w1] eqn:E.
  - now rewrite (order_quantity_returned norm_ppf w w1 p E).
  - now rewrite (order_quantity_raises norm_ppf w w1 e E).
Qed.

(** The state after a call is the state before, up to the three caches and
    the generator. *)
Lemma after_frame (norm_ppf : R -> R) (c : call) (w : world) :
  idx_entry (self (after norm_ppf c w)) = idx_entry (self w)
  /\ extras (self (after norm_ppf c w)) = extras (self w).
Proof.
  assert (Hp : idx_entry (self (snd (get_distribution_parameters w)))
               = idx_entry (self w)
               /\ extras (self (snd (get_distribution_parameters w)))
                  = extras (self w)).
  { destruct (parameters_state w) as [-> | (p & ->)]; split; reflexivity. }
  destruct c as [| | | size disrupt]; simpl.
  - split; reflexivity.
  - exact Hp.
  - rewrite order_quantity_state. exact Hp.
  - destruct (demand_cases size disrupt w)
      as [E | [(E & _) | [(e & E & _) | (p & w1 & _ & E1 & E)]]];
      try (rewrite E; split; reflexivity).
    cbv zeta in E. rewrite E.
    rewrite E1 in Hp. simpl in Hp.
    (destruct (Rlt_dec (disrupted disrupt (sigma p)) 0);
       [| destruct (allocation_error _)]); exact Hp.
Qed.

(** No call changes what numpy can allocate. *)
Lemma after_memory (norm_ppf : R -> R) (c : call) (w : world) :
  np_empty (np_random (after norm_ppf c w)) = np_empty (np_random w).
Proof.
  assert (Hp : np_empty (np_random (snd (get_distribution_parameters w)))
               = np_empty (np_random w)).
  { destruct (parameters_state w) as [-> | (p & ->)]; reflexivity. }
  destruct c as [| | | size disrupt]; simpl.
  - reflexivity.
  - exact Hp.
  - rewrite order_quantity_state. exact Hp.
  - destruct (demand_cases size disrupt w)
      as [E | [(E & _) | [(e & E & _) | (p & w1 & _ & E1 & E)]]];
      try (rewrite E; reflexivity).
    cbv zeta in E. rewrite E.
    rewrite E1 in Hp. simpl in Hp.
    (destruct (Rlt_dec (disrupted disrupt (sigma p)) 0);
       [| destruct (allocation_error _)]); exact Hp.
Qed.

Lemma run_memory (norm_ppf : R -> R) (cs : list call) :
  forall w,
    np_empty (np_random (run norm_ppf cs w)) = np_empty (np_random w).
Proof.
  induction cs as [| c cs IH]; intros w; [reflexivity |].
  change (run norm_ppf (c :: cs) w)
    with (run norm_ppf cs (after norm_ppf c w)).
  rewrite (IH (after norm_ppf c w)). apply after_memory.
Qed.

Lemma run_frame (norm_ppf : R -> R) (cs : list call) :
  forall w,
    idx_entry (self (run norm_ppf cs w)) = idx_entry (self w)
    /\ extras (self (run norm_ppf cs w)) = extras (self w).
Proof.
  induction cs as [| c cs IH]; intros w; [split; reflexivity |].
  change (run norm_ppf (c :: cs) w)
    with (run norm_ppf cs (after norm_ppf c w)).
  destruct (IH (after norm_ppf c w)) as [-> ->].
  apply after_frame.
Qed.

(** With a size the assertion accepts and numpy can allocate, the call on
    a well-formed treatment returns as many samples as were asked for. *)
Lemma demand_returns (w : world) (size : pyval) (disrupt : bool) :
  valid_size size = true ->
  valid_treatment (self w) ->
  np_empty (np_random w) (resolved_size size) = Allocated ->
  exists l w',
    get_demand_rvs size disrupt w = (Ok l, w')
    /\ Z.of_nat (List.length l) = resolved_size size.
Proof.
  intros Hv Hvalid Hmem.
  destruct (valid_size_resolved size Hv) as [Hpos _].
  destruct ((Z.of_nat (List.length (_demand_rvs (self w)))
             =? resolved_size size)%Z && negb disrupt) eqn:Hearly.
  - apply andb_prop in Hearly. destruct Hearly as [Hlen Hd].
    apply Z.eqb_eq in Hlen.
    destruct disrupt; [discriminate |].
    exists (_demand_rvs (self w)), w.
    split; [now apply demand_cached | exact Hlen].
  - destruct (parameters_available w Hvalid) as (p & w1 & Hp & Hs).
    destruct (parameters_returned w w1 p Hp) as (_ & _ & _ & Hg).
    pose proof (demand_draw size disrupt w w1 p Hv Hearly Hp) as D.
    simpl in D. rewrite Hg, Hmem in D.
    pose proof (disrupted_nonneg disrupt (sigma p) Hs) as Hd.
    destruct (Rlt_dec (disrupted disrupt (sigma p)) 0) as [Hneg | _];
      [lra |].
    eexists. eexists. split; [exact D |].
    apply lognormal_samples_length. lia.
Qed.

(** With a size numpy cannot allocate, the call that has to draw raises
    what numpy raises, after the parameters were cached and [sigma]
    doubled if the call disrupts; the samples of the cache stay. *)
Lemma demand_refused (w : world) (size : pyval) (disrupt : bool) :
  valid_size size = true ->
  valid_treatment (self w) ->
  (Z.of_nat (List.length (_demand_rvs (self w))) =? resolved_size size)%Z
    && negb disrupt = false ->
  np_empty (np_random w) (resolved_size size) <> Allocated ->
  exists e p w1,
    get_distribution_parameters w = (Ok p, w1)
    /\ allocation_error (np_empty (np_random w) (resolved_size size))
       = Some e
    /\ get_demand_rvs size disrupt w
       = (Raise e, with_sigma (disrupted disrupt (sigma p)) w1).
Proof.
  intros Hv Hvalid Hearly Hmem.
  destruct (parameters_available w Hvalid) as (p & w1 & Hp & Hs).
  destruct (parameters_returned w w1 p Hp) as (_ & _ & _ & Hg).
  pose proof (demand_draw size disrupt w w1 p Hv Hearly Hp) as D.
  simpl in D. rewrite Hg in D.
  pose proof (disrupted_nonneg disrupt (sigma p) Hs) as Hd.
  destruct (Rlt_dec (disrupted disrupt (sigma p)) 0) as [Hneg | _];
    [lra |].
  destruct (np_empty (np_random w) (resolved_size size)) eqn:Ha;
    [contradiction | |]; simpl in D;
    eexists; exists p, w1; (split; [exact Hp |]);
    (split; [reflexivity | exact D]).
Qed.

(** The value the code returns against the quantile of the treatment's own
    log-normal distribution: they differ by the factor [exp(sigma^2/2)]. *)
Lemma order_quantity_quantile (norm_ppf : R -> R) (cf m s : R) :
  order_quantity norm_ppf cf m s
  = (exp (s ^ 2 / 2) * lognormal_quantile norm_ppf m s cf)%R.
Proof.
  unfold order_quantity, lognormal_quantile.
  rewrite <- !exp_plus. f_equal. ring.
Qed.

Lemma order_quantity_above_quantile (norm_ppf : R -> R) (cf m s : R) :
  (s <> 0)%R ->
  (lognormal_quantile norm_ppf m s cf < order_quantity norm_ppf cf m s)%R.
Proof.
  intros Hs. rewrite order_quantity_quantile.
  assert (Hq : (0 < lognormal_quantile norm_ppf m s cf)%R)
    by apply exp_pos.
  assert (He : (1 < exp (s ^ 2 / 2))%R).
  { rewrite <- exp_0. apply exp_increasing. nra. }
  nra.
Qed.

(** * The properties of the specification *)

(** C4.  For a treatment with index [i] in 0..5, [get_unit_costs] returns the
    alternate triple (24, 5.5, 5) if and only if [i = 3] and the default
    triple (25, 14, 6) for every other index; the call leaves the state as it
    was, and its result is the same on any two states with the same index. *)
Theorem unit_costs_by_index (w : world) (i : Z) :
  idx (self w) = PyInt i ->
  (0 <= i <= 5)%Z ->
  get_unit_costs w
  = (Ok (if (i =? 3)%Z then UnitCosts_alternate else UnitCosts_default), w)
  /\ (fst (get_unit_costs w) = Ok (mkUnitCosts (24 # 1) (11 # 2) (5 # 1))
      <-> i = 3%Z)
  /\ (fst (get_unit_costs w) = Ok (mkUnitCosts (25 # 1) (14 # 1) (6 # 1))
      <-> i <> 3%Z)
  /\ (forall w', idx (self w') = idx (self w) ->
                 fst (get_unit_costs w') = fst (get_unit_costs w)).
Proof.
  intros Hidx Hi.
  assert (E : get_unit_costs w
              = (Ok (if (i =? 3)%Z then UnitCosts_alternate
                     else UnitCosts_default), w)).
  { rewrite unit_costs_call. unfold UnitCosts_from_treatment.
    rewrite Hidx. reflexivity. }
  split; [exact E |]. rewrite E. simpl.
  repeat split.
  - destruct (Z.eqb_spec i 3) as [-> | Hne]; [reflexivity |].
    intros H. inversion H.
  - intros ->. reflexivity.
  - destruct (Z.eqb_spec i 3) as [-> | Hne]; [| intros _; exact Hne].
    intros H. inversion H.
  - intros Hne. destruct (Z.eqb_spec i 3) as [-> | _]; [contradiction |].
    reflexivity.
  - intros w' Hsame. change (fst (get_unit_costs w'))
      with (Ok (UnitCosts_from_treatment (self w'))).
    unfold UnitCosts_from_treatment. rewrite Hsame, Hidx. reflexivity.
Qed.

Lemma unit_costs_by_index_witness :
  get_unit_costs (fresh 3 (numpy_with (fun _ => 0%R)))
  = (Ok UnitCosts_alternate, fresh 3 (numpy_with (fun _ => 0%R))).
Proof.
  apply (unit_costs_by_index (fresh 3 (numpy_with (fun _ => 0%R))) 3);
    [reflexivity | lia].
Defined.

(** A treatment whose index is one of the six gets its parameters, whatever
    its cache holds. *)
Lemma parameters_exist (w : world) (i : Z) :
  idx (self w) = PyInt i ->
  (0 <= i <= 5)%Z ->
  exists p w1, get_distribution_parameters w = (Ok p, w1).
Proof.
  intros Hidx Hi.
  destruct (cache_cases w) as [(m & s & Hc) | Hnone].
  - exists (mkDisributionParameters m s), w. now apply parameters_cached.
  - destruct (DISTRIBUTIONS_getitem i Hi) as (d & Hd & _).
    pose proof (from_treatment_fit _ i d Hidx Hi Hd) as Hfit.
    eexists. eexists. apply (parameters_first_call _ w Hnone Hfit).
Qed.

(** C1, as the code has it.  For a treatment with index in 0..5,
    [get_optimal_order_quantity] takes the critical fractile
    [cf = (rcpu - wcpu) / ((rcpu - wcpu) + (wcpu - scpu))] of the unit costs
    [get_unit_costs] returns, takes [(mu, sigma)] from
    [get_distribution_parameters], and returns
    [exp(mu + sigma^2/2) * exp(norm_ppf(cf) * sigma)].  This is
    [exp(sigma^2/2)] times the quantile at probability [cf] of the
    log-normal distribution with the treatment's parameters [(mu, sigma)],
    so it lies strictly above that quantile unless [sigma] is 0.  For
    index 0 the costs are (25, 14, 6) and [cf = 11/19]. *)
Theorem optimal_order_quantity_formula
        (norm_ppf : R -> R) (w : world) (i : Z) :
  idx (self w) = PyInt i ->
  (0 <= i <= 5)%Z ->
  exists u p w1 q,
    fst (get_unit_costs w) = Ok u
    /\ get_distribution_parameters w = (Ok p, w1)
    /\ get_optimal_order_quantity norm_ppf w = (Ok q, w1)
    /\ let cf := ((Q2R (rcpu u) - Q2R (wcpu u))
                  / ((Q2R (rcpu u) - Q2R (wcpu u))
                     + (Q2R (wcpu u) - Q2R (scpu u))))%R in
       q = (exp (mu p + sigma p ^ 2 / 2) * exp (norm_ppf cf * sigma p))%R
       /\ q = (exp (sigma p ^ 2 / 2)
               * lognormal_quantile norm_ppf (mu p) (sigma p) cf)%R
       /\ (sigma p <> 0%R ->
           (lognormal_quantile norm_ppf (mu p) (sigma p) cf < q)%R)
       /\ (i = 0%Z ->
           u = mkUnitCosts (25 # 1) (14 # 1) (6 # 1) /\ cf = (11 / 19)%R).
Proof.
  intros Hidx Hi.
  destruct (parameters_exist w i Hidx Hi) as (p & w1 & Hp).
  exists (UnitCosts_from_treatment (self w)), p, w1.
  eexists.
  split; [reflexivity |]. split; [exact Hp |]. split.
  - exact (order_quantity_returned norm_ppf w w1 p Hp).
  - cbv zeta. split; [reflexivity |]. split; [| split].
    + apply order_quantity_quantile.
    + intros Hs. now apply order_quantity_above_quantile.
    + intros ->. unfold UnitCosts_from_treatment. rewrite Hidx. simpl.
      split; [reflexivity |]. exact critical_fractile_default.
Qed.

Lemma optimal_order_quantity_formula_witness :
  exists p w1 q,
    get_distribution_parameters (fresh 0 (numpy_with (fun _ => 0%R)))
    = (Ok p, w1)
    /\ get_optimal_order_quantity
         (fun _ => 0%R) (fresh 0 (numpy_with (fun _ => 0%R)))
       = (Ok q, w1)
    /\ q = (exp (mu p + sigma p ^ 2 / 2) * exp (0 * sigma p))%R.
Proof.
  destruct (optimal_order_quantity_formula
              (fun _ => 0%R) (fresh 0 (numpy_with (fun _ => 0%R))) 0)
    as (u & p & w1 & q & Hu & Hp & Hq & Hf & _); [reflexivity | lia |].
  exists p, w1, q. repeat split; assumption.
Defined.

(** C1 as stated fails for the treatment with index 0: with the fitted
    parameters [(mu, sigma)] of the profile (100, 50) and [cf = 11/19], the
    value returned is not the quantile at probability [cf] of the
    log-normal distribution with these parameters, whatever the standard
    normal quantile function is. *)
Lemma order_quantity_is_not_the_quantile :
  exists p w1,
    get_distribution_parameters (fresh 0 (numpy_with (fun _ => 0%R)))
    = (Ok p, w1)
    /\ critical_fractile
         (UnitCosts_from_treatment
            (self (fresh 0 (numpy_with (fun _ => 0%R)))))
       = (11 / 19)%R
    /\ forall norm_ppf : R -> R,
         exists q,
           get_optimal_order_quantity
             norm_ppf (fresh 0 (numpy_with (fun _ => 0%R)))
           = (Ok q, w1)
           /\ q <> lognormal_quantile norm_ppf (mu p) (sigma p) (11 / 19).
Proof.
  set (w := fresh 0 (numpy_with (fun _ => 0%R))).
  pose proof (from_treatment_fit (self w) 0 (mkDistribution 100 50)
                                 eq_refl ltac:(lia) eq_refl) as Hfit.
  cbn [natural_mean natural_sigma] in Hfit.
  set (p := mkDisributionParameters
              (method_of_moments_mu 100 50)
              (method_of_moments_sigma 100 50)) in *.
  assert (Hp : get_distribution_parameters w = (Ok p, with_parameters p w))
    by (apply parameters_first_call; [left; reflexivity | exact Hfit]).
  assert (Hcf : critical_fractile (UnitCosts_from_treatment (self w))
                = (11 / 19)%R) by exact critical_fractile_default.
  exists p, (with_parameters p w).
  split; [exact Hp |]. split; [exact Hcf |].
  intros norm_ppf. eexists.
  split; [exact (order_quantity_returned norm_ppf w _ p Hp) |].
  rewrite Hcf.
  assert (Hs : (0 < sigma p)%R).
  { apply fit_sigma_positive; lra. }
  pose proof (order_quantity_above_quantile
                norm_ppf (11 / 19) (mu p) (sigma p)) as Hlt.
  lra.
Qed.

(** C2.  For a treatment with index [i] in 0..5 and an empty cache, the first
    call of [get_distribution_parameters] returns
    [mu = ln(m^2 / sqrt(s^2 + m^2))] and [sigma = sqrt(ln(s^2 / m^2 + 1))]
    for the [i]-th table entry [(m, s)], leaves the pair in the cache, and
    every later call returns the same pair, whatever calls without
    disruption come in between. *)
Theorem parameters_fitted_then_cached
        (norm_ppf : R -> R) (w : world) (i : Z) (d : Distribution) :
  idx (self w) = PyInt i ->
  (0 <= i <= 5)%Z ->
  nth_error DISTRIBUTIONS (Z.to_nat i) = Some d ->
  _mu (self w) = None \/ _sigma (self w) = None ->
  let m := IZR (natural_mean d) in
  let s := IZR (natural_sigma d) in
  let p := mkDisributionParameters
             (ln (m ^ 2 / sqrt (s ^ 2 + m ^ 2)))
             (sqrt (ln (s ^ 2 / m ^ 2 + 1))) in
  exists w1,
    get_distribution_parameters w = (Ok p, w1)
    /\ _mu (self w1) = Some (mu p)
    /\ _sigma (self w1) = Some (sigma p)
    /\ get_distribution_parameters w1 = (Ok p, w1)
    /\ (forall cs, disruptions cs = 0%nat ->
                   fst (get_distribution_parameters (run norm_ppf cs w1))
                   = Ok p).
Proof.
  intros Hidx Hi Hd Hnone m s p.
  pose proof (from_treatment_fit _ i d Hidx Hi Hd) as Hfit.
  fold m s in Hfit. unfold method_of_moments_mu, method_of_moments_sigma in Hfit.
  fold p in Hfit.
  pose proof (parameters_first_call p w Hnone Hfit) as Hp.
  exists (with_parameters p w).
  split; [exact Hp |]. split; [reflexivity |]. split; [reflexivity |].
  split; [exact (parameters_idempotent _ _ _ Hp) |].
  intros cs Hcs.
  rewrite (run_parameters norm_ppf cs (with_parameters p w) p).
  - rewrite Hcs. simpl. now rewrite Rmult_1_l.
  - now rewrite (parameters_idempotent _ _ _ Hp).
Qed.

Lemma parameters_fitted_then_cached_witness :
  exists w1,
    get_distribution_parameters (fresh 0 (numpy_with (fun _ => 0%R)))
    = (Ok (mkDisributionParameters
             (ln (100 ^ 2 / sqrt (50 ^ 2 + 100 ^ 2)))
             (sqrt (ln (50 ^ 2 / 100 ^ 2 + 1)))), w1).
Proof.
  destruct (parameters_fitted_then_cached
              (fun _ => 0%R) (fresh 0 (numpy_with (fun _ => 0%R))) 0
              (mkDistribution 100 50))
    as (w1 & H & _);
    [reflexivity | lia | reflexivity | left; reflexivity |].
  exists w1. exact H.
Defined.

(** C3.  Each call of [get_demand_rvs] with [disrupt=True] (and a size the
    assertion accepts) multiplies the treatment's [sigma] by 2 and leaves
    [mu] as it was; [n] such calls give [2^n] times the [sigma] the treatment
    had; and after any sequence of calls, [sigma] is [2^n] times that value,
    [n] the number of disrupting calls in the sequence, so calls of
    [get_distribution_parameters] and calls without disruption never take a
    doubling back. *)
Theorem disruption_compounds
        (norm_ppf : R -> R) (w : world) (p : DisributionParameters) :
  fst (get_distribution_parameters w) = Ok p ->
  (forall size,
      valid_size size = true ->
      fst (get_distribution_parameters
             (snd (get_demand_rvs size true w)))
      = Ok (mkDisributionParameters (mu p) (2 * sigma p)))
  /\ (forall size n,
         valid_size size = true ->
         fst (get_distribution_parameters
                (run norm_ppf (repeat (CallGetDemandRvs size true) n) w))
         = Ok (mkDisributionParameters (mu p) (2 ^ n * sigma p)))
  /\ (forall cs,
         fst (get_distribution_parameters (run norm_ppf cs w))
         = Ok (mkDisributionParameters
                 (mu p) (2 ^ disruptions cs * sigma p)))
  /\ (forall cs later,
         disruptions later = 0%nat ->
         fst (get_distribution_parameters (run norm_ppf (cs ++ later) w))
         = fst (get_distribution_parameters (run norm_ppf cs w))).
Proof.
  intros H. repeat split.
  - intros size Hv.
    pose proof (after_parameters norm_ppf (CallGetDemandRvs size true) w p H)
      as E.
    unfold sigma_factor in E. simpl in E. rewrite Hv in E.
    rewrite E. f_equal. f_equal. ring.
  - intros size n Hv.
    rewrite (run_parameters norm_ppf _ w p H).
    now rewrite (disruptions_repeat size n Hv).
  - intros cs. exact (run_parameters norm_ppf cs w p H).
  - intros cs later Hl.
    rewrite !(run_parameters norm_ppf _ w p H).
    rewrite disruptions_app, Hl, Nat.add_0_r. reflexivity.
Qed.

Lemma disruption_compounds_witness :
  fst (get_distribution_parameters
         (run (fun _ => 0%R)
              (repeat (CallGetDemandRvs (PyInt 3) true) 2)
              (fresh 0 (numpy_with (fun _ => 0%R)))))
  = Ok (mkDisributionParameters
          (ln (IZR (100 ^ 2) / sqrt (IZR (50 ^ 2 + 100 ^ 2))))
          (2 ^ 2 * sqrt (ln (IZR (50 ^ 2) / IZR (100 ^ 2) + 1)))).
Proof.
  apply (disruption_compounds
           (fun _ => 0%R) (fresh 0 (numpy_with (fun _ => 0%R)))
           (mkDisributionParameters
              (ln (IZR (100 ^ 2) / sqrt (IZR (50 ^ 2 + 100 ^ 2))))
              (sqrt (ln (IZR (50 ^ 2) / IZR (100 ^ 2) + 1)))));
    reflexivity.
Defined.

(** C5, as the code has it.  If the cache holds exactly [n] samples, [n] a
    positive integer, [get_demand_rvs(size=n, disrupt=False)] returns the
    cached list and leaves the whole state, generator included, as it was,
    so a second such call returns the same list again.  A call with another
    positive size [m], on a treatment with index 0..5 whose cached [sigma]
    is not negative, draws [m] new samples from the generator with the
    treatment's parameters, stores them in place of the old ones and
    returns them, provided numpy can allocate [m] floats; if it cannot,
    the call raises what numpy raises and the cached samples stay. *)
Theorem sample_cache_reuse (w : world) (n : Z) :
  (0 < n)%Z ->
  Z.of_nat (List.length (_demand_rvs (self w))) = n ->
  get_demand_rvs (PyInt n) false w = (Ok (_demand_rvs (self w)), w)
  /\ (forall l1 w1,
         get_demand_rvs (PyInt n) false w = (Ok l1, w1) ->
         get_demand_rvs (PyInt n) false w1 = (Ok l1, w1))
  /\ (forall m,
         (0 < m)%Z -> m <> n ->
         valid_treatment (self w) ->
         np_empty (np_random w) m = Allocated ->
         exists p w1 w2,
           get_distribution_parameters w = (Ok p, w1)
           /\ get_demand_rvs (PyInt m) false w
              = (Ok (lognormal_samples (variates (np_random w))
                                       (mu p) (sigma p) m), w2)
           /\ _demand_rvs (self w2)
              = lognormal_samples (variates (np_random w)) (mu p) (sigma p) m
           /\ Z.of_nat (List.length (_demand_rvs (self w2))) = m
           /\ (forall k, variates (np_random w2) k
                         = variates (np_random w) (Z.to_nat m + k)%nat))
  /\ (forall m,
         (0 < m)%Z -> m <> n ->
         valid_treatment (self w) ->
         np_empty (np_random w) m <> Allocated ->
         exists e w2,
           get_demand_rvs (PyInt m) false w = (Raise e, w2)
           /\ allocation_error (np_empty (np_random w) m) = Some e
           /\ _demand_rvs (self w2) = _demand_rvs (self w)).
Proof.
  intros Hn Hlen.
  assert (Hv : valid_size (PyInt n) = true) by (simpl; lia).
  assert (E : get_demand_rvs (PyInt n) false w
              = (Ok (_demand_rvs (self w)), w))
    by (apply demand_cached; assumption).
  assert (Hearly : forall m, (0 < m)%Z -> m <> n ->
            (Z.of_nat (List.length (_demand_rvs (self w)))
             =? resolved_size (PyInt m))%Z && negb false = false).
  { intros m Hm Hne. simpl. rewrite Hlen.
    apply andb_false_intro1. apply Z.eqb_neq. lia. }
  split; [exact E |]. split; [| split].
  - intros l1 w1 H. rewrite E in H. inversion H; subst. exact E.
  - intros m Hm Hne Hvalid Hmem.
    destruct (parameters_available w Hvalid) as (p & w1 & Hp & Hs).
    destruct (parameters_returned w w1 p Hp) as (_ & _ & _ & Hg).
    assert (Hvm : valid_size (PyInt m) = true) by (simpl; lia).
    pose proof (demand_draw (PyInt m) false w w1 p Hvm
                            (Hearly m Hm Hne) Hp) as D.
    simpl in D. rewrite Hg, Hmem in D.
    destruct (Rlt_dec (sigma p) 0) as [Hneg | _]; [lra |].
    exists p, w1. eexists. split; [exact Hp |]. split; [exact D |].
    split; [reflexivity |]. split.
    + simpl. apply lognormal_samples_length. lia.
    + intros k. simpl. now rewrite Hg.
  - intros m Hm Hne Hvalid Hmem.
    assert (Hvm : valid_size (PyInt m) = true) by (simpl; lia).
    destruct (demand_refused w (PyInt m) false Hvm Hvalid
                             (Hearly m Hm Hne) Hmem)
      as (e & p & w1 & Hp & He & D).
    destruct (parameters_returned w w1 p Hp) as (_ & _ & Hr & _).
    exists e. eexists. split; [exact D |]. split; [exact He |].
    exact Hr.
Qed.

Lemma sample_cache_reuse_witness :
  let w := mkWorld (mkTreatment (Some (PyInt 0)) None None [1%R; 2%R] [])
                   (numpy_with (fun _ => 0%R)) in
  get_demand_rvs (PyInt 2) false w = (Ok [1%R; 2%R], w)
  /\ exists l w2,
       get_demand_rvs (PyInt 3) false w = (Ok l, w2)
       /\ _demand_rvs (self w2) = l
       /\ Z.of_nat (List.length l) = 3%Z.
Proof.
  intros w.
  destruct (sample_cache_reuse w 2) as (H & _ & D & _);
    [lia | reflexivity |].
  split; [exact H |].
  destruct (D 3%Z) as (p & w1 & w2 & _ & E & Hl & Hn & _).
  - lia.
  - lia.
  - split.
    + exists 0%Z. split; [reflexivity | lia].
    + intros s Hs. discriminate.
  - reflexivity.
  - eexists. exists w2. split; [exact E |].
    split; [exact Hl |]. rewrite <- Hl. exact Hn.
Defined.

(** C5 as stated fails at the size [2^70]: the treatment with index 0 holds
    two cached samples, the call with the other size [2^70] raises
    [ValueError], since numpy has no array of that dimension, and the two
    samples stay in the cache. *)
Lemma size_beyond_numpy_is_not_drawn :
  let w := mkWorld (mkTreatment (Some (PyInt 0)) None None [1%R; 2%R] [])
                   (numpy_with (fun _ => 0%R)) in
  Z.of_nat (List.length (_demand_rvs (self w))) = 2%Z
  /\ (0 < 2 ^ 70)%Z
  /\ (2 ^ 70 <> 2)%Z
  /\ exists w2,
       get_demand_rvs (PyInt (2 ^ 70)) false w = (Raise ValueError, w2)
       /\ _demand_rvs (self w2) = [1%R; 2%R].
Proof.
  intros w.
  split; [reflexivity |]. split; [lia |]. split; [lia |].
  assert (Hvalid : valid_treatment (self w)).
  { split.
    - exists 0%Z. split; [reflexivity | lia].
    - intros s Hs. discriminate. }
  destruct (demand_refused w (PyInt (2 ^ 70)) false)
    as (e & p & w1 & Hp & He & D);
    [reflexivity | exact Hvalid | reflexivity | discriminate |].
  destruct (parameters_returned w w1 p Hp) as (_ & _ & Hr & _).
  inversion He; subst e.
  eexists. split; [exact D |]. exact Hr.
Qed.

(** C7, as the code has it.  A [size] other than [None] that is not a
    positive integer makes [get_demand_rvs] fail at once with the assertion
    error, the state (cached parameters, samples, generator) untouched;
    [None] stands for the default size 10000.  With [None] or a positive
    integer, on a treatment with index 0..5 whose cached [sigma] is not
    negative, the call returns, with as many samples as the size says, if
    numpy can allocate that many floats (or if the cache already holds that
    many and the call does not disrupt); if numpy cannot, the call raises
    what numpy raises, after the parameters were cached and [sigma] doubled
    by a disrupting call: a computation is left behind. *)
Theorem size_validation (w : world) (size : pyval) (disrupt : bool) :
  (size <> PyNone ->
   (forall z, size = PyInt z -> (z <= 0)%Z) ->
   get_demand_rvs size disrupt w = (Raise AssertionError, w))
  /\ ((size = PyNone \/ exists z, size = PyInt z /\ (0 < z)%Z) ->
      valid_treatment (self w) ->
      let n := match size with PyInt z => z | _ => 10000%Z end in
      (np_empty (np_random w) n = Allocated ->
       exists l w',
         get_demand_rvs size disrupt w = (Ok l, w')
         /\ Z.of_nat (List.length l) = n)
      /\ (Z.of_nat (List.length (_demand_rvs (self w))) = n ->
          disrupt = false ->
          get_demand_rvs size disrupt w = (Ok (_demand_rvs (self w)), w))
      /\ (np_empty (np_random w) n <> Allocated ->
          Z.of_nat (List.length (_demand_rvs (self w))) <> n
          \/ disrupt = true ->
          exists e p w1,
            get_distribution_parameters w = (Ok p, w1)
            /\ allocation_error (np_empty (np_random w) n) = Some e
            /\ get_demand_rvs size disrupt w
               = (Raise e,
                  with_sigma (if disrupt then (sigma p * 2)%R else sigma p)
                             w1))).
Proof.
  split.
  - intros Hnone Hnonpos. apply demand_invalid_size.
    destruct size; try reflexivity; [contradiction |].
    simpl. specialize (Hnonpos z eq_refl). lia.
  - intros Hsize Hvalid n.
    assert (Hv : valid_size size = true).
    { destruct Hsize as [-> | (z & -> & Hz)]; simpl; [reflexivity | lia]. }
    assert (Hn : resolved_size size = n).
    { destruct Hsize as [-> | (z & -> & Hz)]; reflexivity. }
    rewrite <- Hn. split; [| split].
    + intros Hmem. now apply demand_returns.
    + intros Hlen ->. now apply demand_cached.
    + intros Hmem Hnot.
      apply (demand_refused w size disrupt Hv Hvalid); [| exact Hmem].
      destruct Hnot as [Hne | ->]; [| apply andb_false_r].
      apply andb_false_intro1. now apply Z.eqb_neq.
Qed.

Lemma size_validation_witness :
  get_demand_rvs (PyInt 0) true (fresh 0 (numpy_with (fun _ => 0%R)))
  = (Raise AssertionError, fresh 0 (numpy_with (fun _ => 0%R)))
  /\ exists l w',
       get_demand_rvs (PyInt 3) true (fresh 0 (numpy_with (fun _ => 0%R)))
       = (Ok l, w')
       /\ Z.of_nat (List.length l) = 3%Z.
Proof.
  split.
  - apply (size_validation
             (fresh 0 (numpy_with (fun _ => 0%R))) (PyInt 0) true).
    + discriminate.
    + intros z E. inversion E. lia.
  - apply (size_validation
             (fresh 0 (numpy_with (fun _ => 0%R))) (PyInt 3) true).
    + right. exists 3%Z. split; [reflexivity | lia].
    + split.
      * exists 0%Z. split; [reflexivity | lia].
      * intros s E. discriminate.
    + reflexivity.
Defined.

(** C7 as stated fails twice.  At [size=None]: [None] is not a positive
    integer, and the call does not fail, it returns 10000 samples.  At
    [size=2**70]: a positive integer, and the call raises [ValueError],
    leaving the fitted parameters in a cache that was empty. *)
Lemma size_None_is_not_refused :
  ((forall z, PyNone <> PyInt z)
   /\ get_demand_rvs PyNone false (fresh 0 (numpy_with (fun _ => 0%R)))
      <> (Raise AssertionError, fresh 0 (numpy_with (fun _ => 0%R)))
   /\ exists l w',
        get_demand_rvs PyNone false (fresh 0 (numpy_with (fun _ => 0%R)))
        = (Ok l, w')
        /\ Z.of_nat (List.length l) = 10000%Z)
  /\ ((0 < 2 ^ 70)%Z
      /\ _mu (self (fresh 0 (numpy_with (fun _ => 0%R)))) = None
      /\ exists w',
           get_demand_rvs (PyInt (2 ^ 70)) false
                          (fresh 0 (numpy_with (fun _ => 0%R)))
           = (Raise ValueError, w')
           /\ _mu (self w') <> None).
Proof.
  split.
  - assert (H : exists l w',
               get_demand_rvs PyNone false
                              (fresh 0 (numpy_with (fun _ => 0%R)))
               = (Ok l, w')
               /\ Z.of_nat (List.length l) = 10000%Z).
    { apply (demand_returns (fresh 0 (numpy_with (fun _ => 0%R)))
                            PyNone false).
      - reflexivity.
      - apply fresh_valid. lia.
      - reflexivity. }
    split; [discriminate |]. split; [| exact H].
    destruct H as (l & w' & E & _). rewrite E. discriminate.
  - split; [lia |]. split; [reflexivity |].
    destruct (demand_refused (fresh 0 (numpy_with (fun _ => 0%R)))
                             (PyInt (2 ^ 70)) false)
      as (e & p & w1 & Hp & He & D);
      [reflexivity | apply fresh_valid; lia | reflexivity | discriminate |].
    destruct (parameters_returned _ w1 p Hp) as ([Hm _] & _).
    inversion He; subst e.
    eexists. split; [exact D |].
    simpl. rewrite Hm. discriminate.
Qed.

(** C9.  For each of the six profiles, [get_optimal_order_quantity] on a
    freshly constructed treatment returns a real number that is not
    negative: the natural mean of the profile times
    [exp(norm_ppf(cf) * sigma)], with [cf] strictly between 0 and 1 and
    every logarithm and square root of the fit taken inside its domain.
    The value depends on the index only: two fresh treatments with the same
    index get the same value, whatever the generator holds, and the call
    draws nothing from the generator. *)
Theorem order_quantity_deterministic
        (norm_ppf : R -> R) (i : Z) (d : Distribution)
        (g1 g2 : numpy_state) :
  (0 <= i <= 5)%Z ->
  nth_error DISTRIBUTIONS (Z.to_nat i) = Some d ->
  let cf :=
    critical_fractile (UnitCosts_from_treatment (Treatment_init (PyInt i))) in
  let m := IZR (natural_mean d) in
  let s := IZR (natural_sigma d) in
  let q := (m * exp (norm_ppf cf * sqrt (ln (s ^ 2 / m ^ 2 + 1))))%R in
  exists w1 w2,
    get_optimal_order_quantity norm_ppf (fresh i g1) = (Ok q, w1)
    /\ get_optimal_order_quantity norm_ppf (fresh i g2) = (Ok q, w2)
    /\ (0 <= q)%R
    /\ (0 < cf < 1)%R
    /\ (0 < m ^ 2 / sqrt (s ^ 2 + m ^ 2))%R
    /\ (0 < ln (s ^ 2 / m ^ 2 + 1))%R
    /\ np_random w1 = g1 /\ np_random w2 = g2.
Proof.
  intros Hi Hd cf m s q.
  destruct (DISTRIBUTIONS_positive_reals _ d Hd) as [Hm Hs].
  fold m in Hm. fold s in Hs.
  pose proof (from_treatment_fit (Treatment_init (PyInt i)) i d
                                 eq_refl Hi Hd) as Hfit.
  fold m s in Hfit.
  set (p := mkDisributionParameters
              (method_of_moments_mu m s) (method_of_moments_sigma m s)) in *.
  assert (Hq : order_quantity norm_ppf cf (mu p) (sigma p) = q).
  { unfold order_quantity, p. cbn [mu sigma].
    rewrite (natural_mean_recovered m s Hm Hs). reflexivity. }
  assert (H1 : get_distribution_parameters (fresh i g1)
               = (Ok p, with_parameters p (fresh i g1)))
    by (apply parameters_first_call; [left; reflexivity | exact Hfit]).
  assert (H2 : get_distribution_parameters (fresh i g2)
               = (Ok p, with_parameters p (fresh i g2)))
    by (apply parameters_first_call; [left; reflexivity | exact Hfit]).
  exists (with_parameters p (fresh i g1)), (with_parameters p (fresh i g2)).
  split.
  { rewrite (order_quantity_returned norm_ppf _ _ p H1).
    f_equal. f_equal. exact Hq. }
  split.
  { rewrite (order_quantity_returned norm_ppf _ _ p H2).
    f_equal. f_equal. exact Hq. }
  split.
  { rewrite <- Hq. apply Rlt_le, order_quantity_positive. }
  split; [apply critical_fractile_in_unit_interval |].
  split; [now apply fit_log_argument_positive |].
  split; [now apply fit_sqrt_argument_positive |].
  split; reflexivity.
Qed.

Lemma order_quantity_deterministic_witness :
  exists q w1 w2,
    get_optimal_order_quantity (fun _ => 0%R) (fresh 3 (numpy_with (fun _ => 0%R)))
    = (Ok q, w1)
    /\ get_optimal_order_quantity
         (fun _ => 0%R) (fresh 3 (numpy_with (fun _ => 1%R)))
       = (Ok q, w2)
    /\ (0 <= q)%R.
Proof.
  destruct (order_quantity_deterministic
              (fun _ => 0%R) 3 (mkDistribution 500 150)
              (numpy_with (fun _ => 0%R)) (numpy_with (fun _ => 1%R)))
    as (w1 & w2 & H1 & H2 & Hq & _); [lia | reflexivity |].
  eexists. exists w1, w2. split; [exact H1 |]. split; [exact H2 | exact Hq].
Defined.

(** C10.  The table holds each profile twice: entries 2 and 3 are
    (500, 150), entries 0 and 4 are (100, 50), entries 1 and 5 are
    (100, 100); [get_distribution_parameters] returns the same pair for the
    two indices of each couple; treatments 2 and 3 get different unit
    costs. *)
Theorem duplicate_profiles (g : numpy_state) :
  (nth_error DISTRIBUTIONS 2 = Some (mkDistribution 500 150)
   /\ nth_error DISTRIBUTIONS 3 = Some (mkDistribution 500 150))
  /\ (nth_error DISTRIBUTIONS 0 = Some (mkDistribution 100 50)
      /\ nth_error DISTRIBUTIONS 4 = Some (mkDistribution 100 50))
  /\ (nth_error DISTRIBUTIONS 1 = Some (mkDistribution 100 100)
      /\ nth_error DISTRIBUTIONS 5 = Some (mkDistribution 100 100))
  /\ (exists p,
         fst (get_distribution_parameters (fresh 2 g)) = Ok p
         /\ fst (get_distribution_parameters (fresh 3 g)) = Ok p)
  /\ (exists p,
         fst (get_distribution_parameters (fresh 0 g)) = Ok p
         /\ fst (get_distribution_parameters (fresh 4 g)) = Ok p)
  /\ (exists p,
         fst (get_distribution_parameters (fresh 1 g)) = Ok p
         /\ fst (get_distribution_parameters (fresh 5 g)) = Ok p)
  /\ fst (get_unit_costs (fresh 2 g)) = Ok UnitCosts_default
  /\ fst (get_unit_costs (fresh 3 g)) = Ok UnitCosts_alternate
  /\ UnitCosts_default <> UnitCosts_alternate.
Proof.
  repeat split; try (eexists; split; reflexivity).
  intros H. inversion H.
Qed.

(** C6, at the failing input.  The blob [{"idx": 7}] deserializes without an
    error into a treatment whose index is 7; the index is only found out of
    range later, when the profile table is subscripted. *)
Theorem from_json_accepts_index_out_of_range :
  exists t,
    from_json (JsonObject [("idx"%string, PyInt 7)]) = Ok t
    /\ idx t = PyInt 7
    /\ DisributionParameters_from_treatment t = Raise IndexError.
Proof. eexists. repeat split. Qed.

(** Text that does not decode is refused. *)
Lemma from_json_malformed : from_json Malformed = Raise ValidationError.
Proof. reflexivity. Qed.

(** C8, at the failing inputs.  [json] writes out the fields of the model
    only, and [idx] is not one of them: every treatment serializes to the
    empty object, and what [from_json] builds from it has no index of its
    own, so reading [idx] yields the class attribute, not the index the
    treatment had. *)
Theorem json_round_trip_loses_index (i : Z) :
  json (Treatment_init (PyInt i)) None = Ok (JsonObject [])
  /\ exists b t,
       json (Treatment_init (PyInt i)) None = Ok b
       /\ from_json b = Ok t
       /\ idx_entry t = None
       /\ idx t = PyClass "ConstrainedIntValue"
       /\ idx t <> idx (Treatment_init (PyInt i)).
Proof.
  split; [reflexivity |]. eexists. eexists.
  split; [reflexivity |]. repeat split.
  simpl. discriminate.
Qed.

(** * Further properties of the methods *)

(** X1.  No method ever changes the index of a treatment, nor the attributes
    that callers attached to it: after any sequence of calls both are what
    they were. *)
Theorem run_keeps_index (norm_ppf : R -> R) (cs : list call) (w : world) :
  idx (self (run norm_ppf cs w)) = idx (self w)
  /\ idx_entry (self (run norm_ppf cs w)) = idx_entry (self w)
  /\ extras (self (run norm_ppf cs w)) = extras (self w).
Proof.
  destruct (run_frame norm_ppf cs w) as [Hi He].
  repeat split; try assumption.
  unfold idx. now rewrite Hi.
Qed.

(** X2.  On a treatment created with an index in 0..5, no method raises on
    its own account, whatever was called before: after any sequence of
    calls, [get_unit_costs], [get_distribution_parameters] and
    [get_optimal_order_quantity] return, and so does [get_demand_rvs] for
    every size that is [None] or a positive integer and that numpy can
    allocate, with that many samples. *)
Theorem valid_treatment_never_raises
        (norm_ppf : R -> R) (i : Z) (g : numpy_state) (cs : list call) :
  (0 <= i <= 5)%Z ->
  let w := run norm_ppf cs (fresh i g) in
  (exists u, get_unit_costs w = (Ok u, w))
  /\ (exists p w', get_distribution_parameters w = (Ok p, w'))
  /\ (exists q w', get_optimal_order_quantity norm_ppf w = (Ok q, w'))
  /\ (forall size disrupt,
         valid_size size = true ->
         np_empty g (resolved_size size) = Allocated ->
         exists l w',
           get_demand_rvs size disrupt w = (Ok l, w')
           /\ Z.of_nat (List.length l) = resolved_size size).
Proof.
  intros Hi w.
  assert (Hv : valid_treatment (self w))
    by (apply run_valid, fresh_valid; exact Hi).
  destruct (parameters_available w Hv) as (p & w1 & Hp & _).
  split; [eexists; apply unit_costs_call |].
  split; [exists p, w1; exact Hp |].
  split.
  - eexists. exists w1. exact (order_quantity_returned norm_ppf w w1 p Hp).
  - intros size disrupt Hsize Hmem. apply demand_returns; try assumption.
    unfold w. rewrite run_memory. exact Hmem.
Qed.

Lemma valid_treatment_never_raises_witness :
  exists l w',
    get_demand_rvs
      (PyInt 2) false
      (run (fun _ => 0%R)
           [CallGetDemandRvs (PyInt 3) true; CallGetOptimalOrderQuantity]
           (fresh 1 (numpy_with (fun _ => 0%R))))
    = (Ok l, w')
    /\ Z.of_nat (List.length l) = 2%Z.
Proof.
  destruct (valid_treatment_never_raises
              (fun _ => 0%R) 1 (numpy_with (fun _ => 0%R))
              [CallGetDemandRvs (PyInt 3) true; CallGetOptimalOrderQuantity])
    as (_ & _ & _ & H); [lia |].
  apply (H (PyInt 2) false); reflexivity.
Defined.

(** *** Indices outside the table *)

Lemma getitem_out_of_range (i : Z) :
  (i < -6 \/ 5 < i)%Z ->
  list_getitem DISTRIBUTIONS (PyInt i) = Raise IndexError.
Proof.
  intros H. unfold list_getitem.
  change (Z.of_nat (List.length DISTRIBUTIONS)) with 6%Z.
  destruct (Z.ltb_spec i 0).
  - destruct (Z.leb_spec 0 (i + 6)); [lia | reflexivity].
  - destruct (Z.leb_spec 0 i); [| lia].
    destruct (Z.ltb_spec i 6); [lia | reflexivity].
Qed.

Lemma getitem_negative (i : Z) :
  (-6 <= i <= -1)%Z ->
  list_getitem DISTRIBUTIONS (PyInt i)
  = list_getitem DISTRIBUTIONS (PyInt (i + 6)).
Proof.
  intros H.
  assert (E : i = (-6)%Z \/ i = (-5)%Z \/ i = (-4)%Z \/ i = (-3)%Z
              \/ i = (-2)%Z \/ i = (-1)%Z) by lia.
  destruct E as [-> | [-> | [-> | [-> | [-> | ->]]]]]; reflexivity.
Qed.

(** Whatever makes the parameters fail makes every method that needs them
    fail the same way, with the state as it was. *)
Lemma parameters_failure_spreads
      (norm_ppf : R -> R) (w : world) (e : exn) :
  _mu (self w) = None \/ _sigma (self w) = None ->
  DisributionParameters_from_treatment (self w) = Raise e ->
  get_distribution_parameters w = (Raise e, w)
  /\ get_optimal_order_quantity norm_ppf w = (Raise e, w)
  /\ (forall size disrupt,
         valid_size size = true ->
         Z.of_nat (List.length (_demand_rvs (self w))) <> resolved_size size
         \/ disrupt = true ->
         get_demand_rvs size disrupt w = (Raise e, w)).
Proof.
  intros Hnone Hfit.
  pose proof (parameters_first_call_raises e w Hnone Hfit) as Hp.
  split; [exact Hp |]. split.
  - exact (order_quantity_raises norm_ppf w w e Hp).
  - intros size disrupt Hv Hnot.
    apply demand_parameters_raise; try assumption.
    destruct Hnot as [Hlen | ->].
    + apply andb_false_intro1. now apply Z.eqb_neq.
    + apply andb_false_intro2. reflexivity.
Qed.

(** X3.  A treatment whose index is an integer below -6 or above 5, and
    whose parameters are not cached yet, fails late: [get_unit_costs] still
    returns the default costs, while [get_distribution_parameters],
    [get_optimal_order_quantity] and every drawing [get_demand_rvs] raise
    [IndexError] and leave the state exactly as it was. *)
Theorem index_out_of_range_fails_late
        (norm_ppf : R -> R) (w : world) (i : Z) :
  idx (self w) = PyInt i ->
  (i < -6 \/ 5 < i)%Z ->
  _mu (self w) = None \/ _sigma (self w) = None ->
  get_unit_costs w = (Ok UnitCosts_default, w)
  /\ get_distribution_parameters w = (Raise IndexError, w)
  /\ get_optimal_order_quantity norm_ppf w = (Raise IndexError, w)
  /\ (forall size disrupt,
         valid_size size = true ->
         Z.of_nat (List.length (_demand_rvs (self w))) <> resolved_size size
         \/ disrupt = true ->
         get_demand_rvs size disrupt w = (Raise IndexError, w)).
Proof.
  intros Hidx Hi Hnone. split.
  - rewrite unit_costs_call. unfold UnitCosts_from_treatment.
    rewrite Hidx. simpl.
    destruct (Z.eqb_spec i 3); [lia | reflexivity].
  - apply parameters_failure_spreads; [exact Hnone |].
    unfold DisributionParameters_from_treatment.
    rewrite Hidx, (getitem_out_of_range i Hi). reflexivity.
Qed.

Lemma index_out_of_range_fails_late_witness :
  get_distribution_parameters (fresh 6 (numpy_with (fun _ => 0%R)))
  = (Raise IndexError, fresh 6 (numpy_with (fun _ => 0%R)))
  /\ get_demand_rvs PyNone false (fresh 6 (numpy_with (fun _ => 0%R)))
     = (Raise IndexError, fresh 6 (numpy_with (fun _ => 0%R))).
Proof.
  destruct (index_out_of_range_fails_late
              (fun _ => 0%R) (fresh 6 (numpy_with (fun _ => 0%R))) 6)
    as (_ & Hp & _ & Hd);
    [reflexivity | lia | left; reflexivity |].
  split; [exact Hp |].
  apply Hd; [reflexivity |]. left. simpl. lia.
Defined.

(** X4.  A treatment whose [idx] is not an integer (a string, [None], a
    float, a list, or the class attribute that is read when the instance
    has no [idx] of its own) and whose parameters are not cached raises
    [TypeError] from [get_distribution_parameters],
    [get_optimal_order_quantity] and every drawing [get_demand_rvs], and
    the state stays as it was; this is what happens to the treatment that
    [from_json] builds from the empty object. *)
Theorem index_not_an_integer_fails
        (norm_ppf : R -> R) (w : world) :
  (forall z, idx (self w) <> PyInt z) ->
  (forall b, idx (self w) <> PyBool b) ->
  _mu (self w) = None \/ _sigma (self w) = None ->
  get_distribution_parameters w = (Raise TypeError, w)
  /\ get_optimal_order_quantity norm_ppf w = (Raise TypeError, w)
  /\ (forall size disrupt,
         valid_size size = true ->
         Z.of_nat (List.length (_demand_rvs (self w))) <> resolved_size size
         \/ disrupt = true ->
         get_demand_rvs size disrupt w = (Raise TypeError, w)).
Proof.
  intros Hint Hbool Hnone.
  apply parameters_failure_spreads; [exact Hnone |].
  unfold DisributionParameters_from_treatment.
  destruct (idx (self w)) as [| b | z | | | | |] eqn:E; try reflexivity.
  - exfalso. now apply (Hbool b).
  - exfalso. now apply (Hint z).
Qed.

Lemma index_not_an_integer_fails_witness :
  from_json (JsonObject []) = Ok (mkTreatment None None None [] [])
  /\ get_distribution_parameters
       (mkWorld (mkTreatment None None None [] [])
                (numpy_with (fun _ => 0%R)))
     = (Raise TypeError,
        mkWorld (mkTreatment None None None [] [])
                (numpy_with (fun _ => 0%R))).
Proof.
  split; [reflexivity |].
  apply (index_not_an_integer_fails (fun _ => 0%R)).
  - intros z. discriminate.
  - intros b. discriminate.
  - left. reflexivity.
Defined.

(** X5.  A negative index counts from the end of the table: a treatment
    with index [i] in -6..-1 gets the distribution parameters of the
    treatment with index [i + 6], but always the default unit costs, also
    for -3, whose counterpart 3 has the alternate costs. *)
Theorem negative_index_wraps (g : numpy_state) (i : Z) :
  (-6 <= i <= -1)%Z ->
  (exists p w1 w2,
      get_distribution_parameters (fresh i g) = (Ok p, w1)
      /\ get_distribution_parameters (fresh (i + 6) g) = (Ok p, w2))
  /\ get_unit_costs (fresh i g) = (Ok UnitCosts_default, fresh i g).
Proof.
  intros Hi. split.
  - assert (Hi6 : (0 <= i + 6 <= 5)%Z) by lia.
    destruct (DISTRIBUTIONS_getitem (i + 6) Hi6) as (d & Hd & _).
    pose proof (from_treatment_fit (Treatment_init (PyInt (i + 6))) (i + 6) d
                                   eq_refl Hi6 Hd) as Hfit.
    assert (Hfit' : DisributionParameters_from_treatment
                      (Treatment_init (PyInt i))
                    = DisributionParameters_from_treatment
                        (Treatment_init (PyInt (i + 6)))).
    { unfold DisributionParameters_from_treatment.
      change (idx (Treatment_init (PyInt i))) with (PyInt i).
      change (idx (Treatment_init (PyInt (i + 6)))) with (PyInt (i + 6)).
      now rewrite (getitem_negative i Hi). }
    rewrite Hfit in Hfit'.
    eexists. eexists. eexists. split.
    + apply (parameters_first_call _ (fresh i g));
        [left; reflexivity | exact Hfit'].
    + apply (parameters_first_call _ (fresh (i + 6) g));
        [left; reflexivity | exact Hfit].
  - rewrite unit_costs_call. unfold UnitCosts_from_treatment. simpl.
    destruct (Z.eqb_spec i 3); [lia | reflexivity].
Qed.

Lemma negative_index_wraps_witness :
  get_unit_costs (fresh (-3) (numpy_with (fun _ => 0%R)))
  = (Ok UnitCosts_default, fresh (-3) (numpy_with (fun _ => 0%R))).
Proof.
  destruct (negative_index_wraps (numpy_with (fun _ => 0%R)) (-3))
    as (_ & H);
    [lia | exact H].
Defined.

(** X6.  Whatever the treatment, whatever its index holds, [get_unit_costs]
    returns, changes nothing, and the costs it returns are ordered
    [0 <= scpu < wcpu < rcpu], so that the critical fractile is a number
    strictly between 0 and 1. *)
Theorem unit_costs_always_ordered (w : world) :
  exists u,
    get_unit_costs w = (Ok u, w)
    /\ (0 <= scpu u)%Q /\ (scpu u < wcpu u)%Q /\ (wcpu u < rcpu u)%Q
    /\ (0 < critical_fractile u < 1)%R.
Proof.
  exists (UnitCosts_from_treatment (self w)).
  split; [apply unit_costs_call |].
  split; [| split; [| split; [| apply critical_fractile_in_unit_interval]]];
    destruct (unit_costs_cases (self w)) as [-> | ->];
    unfold Qle, Qlt; simpl; lia.
Qed.

(** *** Samples *)

(** What [get_demand_rvs] returns is what it leaves in the cache. *)
Lemma demand_result_is_cache
      (size : pyval) (disrupt : bool) (w w' : world) (l : list R) :
  get_demand_rvs size disrupt w = (Ok l, w') ->
  valid_size size = true
  /\ _demand_rvs (self w') = l
  /\ Z.of_nat (List.length l) = resolved_size size.
Proof.
  intros H.
  destruct (demand_cases size disrupt w)
    as [E | [(E & Hlen & Hv & _) | [(e & E & _) | (p & w1 & Hv & _ & E)]]];
    try (rewrite E in H; discriminate).
  - rewrite E in H. inversion H; subst.
    split; [exact Hv |]. split; [reflexivity | exact Hlen].
  - cbv zeta in E. rewrite E in H.
    destruct (Rlt_dec (disrupted disrupt (sigma p)) 0); [discriminate |].
    destruct (allocation_error _); [discriminate |].
    inversion H; subst; clear H.
    destruct (valid_size_resolved size Hv) as [Hpos _].
    split; [exact Hv |]. split; [reflexivity |].
    apply lognormal_samples_length; lia.
Qed.

(** X7.  Whenever [get_demand_rvs] returns, the list it returns is the
    cache it leaves behind, so the same call repeated at once without
    disruption returns the same list again and changes nothing, generator
    included. *)
Theorem demand_then_same_size_reads_cache
        (size : pyval) (disrupt : bool) (w w' : world) (l : list R) :
  get_demand_rvs size disrupt w = (Ok l, w') ->
  _demand_rvs (self w') = l
  /\ Z.of_nat (List.length l) = resolved_size size
  /\ get_demand_rvs size false w' = (Ok l, w').
Proof.
  intros H.
  destruct (demand_result_is_cache size disrupt w w' l H)
    as (Hv & Hc & Hlen).
  split; [exact Hc |]. split; [exact Hlen |].
  rewrite <- Hc. apply demand_cached; [exact Hv |].
  rewrite Hc. exact Hlen.
Qed.

Lemma demand_then_same_size_reads_cache_witness :
  exists l w',
    get_demand_rvs (PyInt 2) true (fresh 0 (numpy_with (fun _ => 0%R)))
    = (Ok l, w')
    /\ get_demand_rvs (PyInt 2) false w' = (Ok l, w').
Proof.
  destruct (demand_returns (fresh 0 (numpy_with (fun _ => 0%R)))
                          (PyInt 2) true)
    as (l & w' & E & _).
  - reflexivity.
  - split.
    + exists 0%Z. split; [reflexivity | lia].
    + intros s Hs. discriminate.
  - reflexivity.
  - exists l, w'. split; [exact E |].
    apply (demand_then_same_size_reads_cache
             (PyInt 2) true (fresh 0 (numpy_with (fun _ => 0%R))) w' l E).
Defined.

(** X9.  A disrupting call doubles [sigma] before it samples: the list it
    returns is drawn with the old [mu] and twice the old [sigma] from the
    next [size] variates of the generator, the generator moves on by
    [size], and the doubled [sigma] is what stays in the cache.  If numpy
    cannot allocate [size] floats the call raises what numpy raises, and
    the doubled [sigma] stays in the cache all the same, with the old
    samples. *)
Theorem disruption_samples_with_doubled_sigma
        (size : pyval) (w w1 : world) (p : DisributionParameters) :
  valid_size size = true ->
  get_distribution_parameters w = (Ok p, w1) ->
  (0 <= sigma p)%R ->
  (np_empty (np_random w) (resolved_size size) = Allocated ->
   exists w2,
     get_demand_rvs size true w
     = (Ok (lognormal_samples (variates (np_random w)) (mu p) (sigma p * 2)
                              (resolved_size size)), w2)
     /\ _mu (self w2) = Some (mu p)
     /\ _sigma (self w2) = Some (sigma p * 2)%R
     /\ (forall k,
            variates (np_random w2) k
            = variates (np_random w)
                       (Z.to_nat (resolved_size size) + k)%nat))
  /\ (forall e,
         allocation_error (np_empty (np_random w) (resolved_size size))
         = Some e ->
         exists w2,
           get_demand_rvs size true w = (Raise e, w2)
           /\ _mu (self w2) = Some (mu p)
           /\ _sigma (self w2) = Some (sigma p * 2)%R
           /\ _demand_rvs (self w2) = _demand_rvs (self w)
           /\ np_random w2 = np_random w).
Proof.
  intros Hv Hp Hs.
  destruct (parameters_returned w w1 p Hp) as ([Hm _] & _ & Hr & Hg).
  pose proof (demand_draw size true w w1 p Hv (andb_false_r _) Hp) as D.
  simpl in D. rewrite Hg in D.
  destruct (Rlt_dec (sigma p * 2) 0) as [Hneg | _]; [lra |].
  split.
  - intros Hmem. rewrite Hmem in D. simpl in D.
    eexists. split; [exact D |]. simpl.
    split; [exact Hm |]. split; [reflexivity |].
    intros k. now rewrite Hg.
  - intros e He. rewrite He in D.
    eexists. split; [exact D |]. simpl.
    split; [exact Hm |]. split; [reflexivity |].
    split; [exact Hr | exact Hg].
Qed.

Lemma disruption_samples_with_doubled_sigma_witness :
  exists p w2,
    get_demand_rvs (PyInt 2) true (fresh 0 (numpy_with (fun _ => 0%R)))
    = (Ok (lognormal_samples (fun _ => 0%R) (mu p) (sigma p * 2) 2), w2).
Proof.
  destruct (parameters_available (fresh 0 (numpy_with (fun _ => 0%R))))
    as (p & w1 & Hp & Hs).
  - split.
    + exists 0%Z. split; [reflexivity | lia].
    + intros s E. discriminate.
  - destruct (disruption_samples_with_doubled_sigma
                (PyInt 2) (fresh 0 (numpy_with (fun _ => 0%R))) w1 p
                eq_refl Hp Hs)
      as (H & _).
    destruct (H eq_refl) as (w2 & E & _).
    exists p, w2. exact E.
Defined.

(** *** The order quantity *)

Lemma costs_after_run (norm_ppf : R -> R) (cs : list call) (w : world) :
  UnitCosts_from_treatment (self (run norm_ppf cs w))
  = UnitCosts_from_treatment (self w).
Proof.
  unfold UnitCosts_from_treatment.
  destruct (run_frame norm_ppf cs w) as [H _].
  unfold idx. now rewrite H.
Qed.

(** X10.  The order quantity follows the disruption: after any sequence of
    calls, [get_optimal_order_quantity] returns the quantity for the same
    critical fractile and the same [mu], with [sigma] multiplied by [2^n],
    [n] the number of disrupting calls in the sequence. *)
Theorem order_quantity_after_calls
        (norm_ppf : R -> R) (cs : list call) (w : world)
        (p : DisributionParameters) :
  fst (get_distribution_parameters w) = Ok p ->
  fst (get_optimal_order_quantity norm_ppf (run norm_ppf cs w))
  = Ok (order_quantity
          norm_ppf
          (critical_fractile (UnitCosts_from_treatment (self w)))
          (mu p) (2 ^ disruptions cs * sigma p)).
Proof.
  intros H.
  pose proof (run_parameters norm_ppf cs w p H) as Hr.
  destruct (parameters_fst _ _ Hr) as (w1 & Hp).
  rewrite (order_quantity_returned norm_ppf _ w1 _ Hp). simpl.
  now rewrite costs_after_run.
Qed.

Lemma order_quantity_after_calls_witness :
  fst (get_optimal_order_quantity
         (fun _ => 0%R)
         (run (fun _ => 0%R) [CallGetDemandRvs PyNone true]
              (mkWorld (mkTreatment (Some (PyInt 0)) (Some 1%R) (Some 1%R)
                                    [] [])
                       (numpy_with (fun _ => 0%R)))))
  = Ok (order_quantity
          (fun _ => 0%R)
          (critical_fractile UnitCosts_default) 1 (2 ^ 1 * 1)).
Proof.
  apply (order_quantity_after_calls
           (fun _ => 0%R) [CallGetDemandRvs PyNone true]
           (mkWorld (mkTreatment (Some (PyInt 0)) (Some 1%R) (Some 1%R) [] [])
                    (numpy_with (fun _ => 0%R)))
           (mkDisributionParameters 1 1)).
  reflexivity.
Defined.

(** The order quantity of a fresh treatment, in closed form. *)
Lemma fresh_order_quantity
      (norm_ppf : R -> R) (i : Z) (d : Distribution) (g : numpy_state) :
  (0 <= i <= 5)%Z ->
  nth_error DISTRIBUTIONS (Z.to_nat i) = Some d ->
  fst (get_optimal_order_quantity norm_ppf (fresh i g))
  = Ok (IZR (natural_mean d)
        * exp (norm_ppf (critical_fractile
                           (UnitCosts_from_treatment
                              (Treatment_init (PyInt i))))
               * method_of_moments_sigma (IZR (natural_mean d))
                                         (IZR (natural_sigma d))))%R.
Proof.
  intros Hi Hd.
  destruct (DISTRIBUTIONS_positive_reals _ d Hd) as [Hm Hs].
  pose proof (from_treatment_fit (Treatment_init (PyInt i)) i d
                                 eq_refl Hi Hd) as Hfit.
  pose proof (parameters_first_call _ (fresh i g)
                                    (or_introl eq_refl) Hfit) as Hp.
  rewrite (order_quantity_returned norm_ppf _ _ _ Hp).
  unfold order_quantity. cbn [fst mu sigma].
  rewrite (natural_mean_recovered _ _ Hm Hs). reflexivity.
Qed.

(** X11.  Treatments 2 and 3 share the demand distribution and differ in
    costs only; with a standard normal quantile function that is strictly
    increasing between 0 and 1, the fresh treatment 3 (alternate costs,
    fractile 37/38) gets a strictly larger order quantity than the fresh
    treatment 2 (default costs, fractile 11/19). *)
Theorem alternate_costs_order_more
        (norm_ppf : R -> R) (g2 g3 : numpy_state) :
  (forall a b, (0 < a)%R -> (a < b)%R -> (b < 1)%R ->
               (norm_ppf a < norm_ppf b)%R) ->
  exists q2 q3,
    fst (get_optimal_order_quantity norm_ppf (fresh 2 g2)) = Ok q2
    /\ fst (get_optimal_order_quantity norm_ppf (fresh 3 g3)) = Ok q3
    /\ (q2 < q3)%R.
Proof.
  intros Hinc.
  eexists. eexists.
  split; [apply (fresh_order_quantity norm_ppf 2 (mkDistribution 500 150));
          [lia | reflexivity] |].
  split; [apply (fresh_order_quantity norm_ppf 3 (mkDistribution 500 150));
          [lia | reflexivity] |].
  change (UnitCosts_from_treatment (Treatment_init (PyInt 2)))
    with UnitCosts_default.
  change (UnitCosts_from_treatment (Treatment_init (PyInt 3)))
    with UnitCosts_alternate.
  rewrite critical_fractile_default, critical_fractile_alternate.
  assert (Hs : (0 < method_of_moments_sigma
                      (IZR (natural_mean (mkDistribution 500 150)))
                      (IZR (natural_sigma (mkDistribution 500 150))))%R).
  { apply fit_sigma_positive; simpl; lra. }
  assert (Hq : (norm_ppf (11 / 19) < norm_ppf (37 / 38))%R)
    by (apply Hinc; lra).
  apply Rmult_lt_compat_l; [simpl; lra |].
  apply exp_increasing.
  apply Rmult_lt_compat_r; assumption.
Qed.

Lemma alternate_costs_order_more_witness :
  exists q2 q3,
    fst (get_optimal_order_quantity
           (fun x => x) (fresh 2 (numpy_with (fun _ => 0%R))))
    = Ok q2
    /\ fst (get_optimal_order_quantity
              (fun x => x) (fresh 3 (numpy_with (fun _ => 0%R))))
       = Ok q3
    /\ (q2 < q3)%R.
Proof.
  apply (alternate_costs_order_more
           (fun x => x) (numpy_with (fun _ => 0%R))
           (numpy_with (fun _ => 0%R))).
  intros a b _ Hab _. exact Hab.
Defined.

(** X12.  Both cost triples put the critical fractile above one half, so
    with a standard normal quantile function that is positive above one
    half, the order quantity of a fresh treatment of any of the six
    profiles lies strictly above the natural mean of its profile. *)
Theorem order_quantity_above_mean
        (norm_ppf : R -> R) (i : Z) (d : Distribution) (g : numpy_state) :
  (forall a, (1 / 2 < a)%R -> (a < 1)%R -> (0 < norm_ppf a)%R) ->
  (0 <= i <= 5)%Z ->
  nth_error DISTRIBUTIONS (Z.to_nat i) = Some d ->
  exists q,
    fst (get_optimal_order_quantity norm_ppf (fresh i g)) = Ok q
    /\ (IZR (natural_mean d) < q)%R.
Proof.
  intros Hpos Hi Hd.
  eexists. split; [apply (fresh_order_quantity norm_ppf i d g Hi Hd) |].
  destruct (DISTRIBUTIONS_positive_reals _ d Hd) as [Hm Hs].
  pose proof (fit_sigma_positive _ _ Hm Hs) as Hsig.
  set (t := Treatment_init (PyInt i)).
  assert (Hcf : (1 / 2 < critical_fractile (UnitCosts_from_treatment t) < 1)%R).
  { destruct (unit_costs_cases t) as [-> | ->].
    - rewrite critical_fractile_alternate. lra.
    - rewrite critical_fractile_default. lra. }
  pose proof (Hpos _ (proj1 Hcf) (proj2 Hcf)) as Hz.
  rewrite <- (Rmult_1_r (IZR (natural_mean d))) at 1.
  apply Rmult_lt_compat_l; [exact Hm |].
  rewrite <- exp_0. apply exp_increasing.
  now apply Rmult_lt_0_compat.
Qed.

Lemma order_quantity_above_mean_witness :
  exists q,
    fst (get_optimal_order_quantity
           (fun x => x) (fresh 0 (numpy_with (fun _ => 0%R))))
    = Ok q
    /\ (100 < q)%R.
Proof.
  apply (order_quantity_above_mean
           (fun x => x) 0 (mkDistribution 100 50)
           (numpy_with (fun _ => 0%R))).
  - intros a Ha _. lra.
  - lia.
  - reflexivity.
Defined.

(** *** Treatment.choose *)

(** X13.  [Treatment.choose] returns, for every draw below six, a fresh
    treatment whose index is the draw, an index in 0..5, with nothing
    cached, and each of the six indices can come out. *)
Theorem choose_gives_valid_treatment (r : nat) :
  (r < 6)%nat ->
  choose r = Ok (Treatment_init (PyInt (Z.of_nat r)))
  /\ (exists t,
         choose r = Ok t
         /\ valid_treatment t
         /\ idx t = PyInt (Z.of_nat r)
         /\ _mu t = None /\ _sigma t = None /\ _demand_rvs t = [])
  /\ (forall i, (0 <= i <= 5)%Z ->
                exists r', (r' < 6)%nat
                           /\ choose r' = Ok (Treatment_init (PyInt i))).
Proof.
  intros Hr.
  assert (Hc : forall k, (k < 6)%nat ->
                         choose k = Ok (Treatment_init (PyInt (Z.of_nat k)))).
  { intros k Hk.
    do 6 (destruct k as [| k]; [reflexivity |]). lia. }
  split; [now apply Hc |]. split.
  - exists (Treatment_init (PyInt (Z.of_nat r))).
    split; [now apply Hc |]. split; [| repeat split].
    split.
    + exists (Z.of_nat r). split; [reflexivity | lia].
    + intros s E. discriminate.
  - intros i Hi. exists (Z.to_nat i). split; [lia |].
    rewrite (Hc (Z.to_nat i)) by lia. now rewrite Z2Nat.id by lia.
Qed.

Lemma choose_gives_valid_treatment_witness :
  choose 4 = Ok (Treatment_init (PyInt 4)).
Proof.
  destruct (choose_gives_valid_treatment 4) as (H & _);
    [lia | exact H].
Defined.

(** *** PydanticModel.from_args *)

Lemma assoc_get_set_same {A} (k : string) (v : A) (d : list (string * A)) :
  assoc_get k (assoc_set k v d) = Some v.
Proof.
  induction d as [| [k' x] d IH]; simpl.
  - now rewrite String.eqb_refl.
  - destruct (String.eqb_spec k' k) as [-> | Hne]; simpl.
    + now rewrite String.eqb_refl.
    + destruct (String.eqb_spec k' k); [contradiction | exact IH].
Qed.

Lemma assoc_get_set_other {A} (k k' : string) (v : A) (d : list (string * A)) :
  k <> k' -> assoc_get k' (assoc_set k v d) = assoc_get k' d.
Proof.
  intros Hne. induction d as [| [k0 x] d IH]; simpl.
  - destruct (String.eqb_spec k k'); [contradiction | reflexivity].
  - destruct (String.eqb_spec k0 k) as [-> | H0]; simpl.
    + destruct (String.eqb_spec k k'); [contradiction | reflexivity].
    + destruct (String.eqb_spec k0 k'); [reflexivity | exact IH].
Qed.

Lemma assoc_update_other {A} (k : string) (new : list (string * A)) :
  forall d,
    (forall kv, In kv new -> fst kv <> k) ->
    assoc_get k (assoc_update d new) = assoc_get k d.
Proof.
  unfold assoc_update.
  induction new as [| [k1 v1] new IH]; intros d H; [reflexivity |].
  simpl. rewrite IH.
  - apply assoc_get_set_other. apply (H (k1, v1)). now left.
  - intros kv Hin. apply H. now right.
Qed.

Lemma assoc_update_member {A} (k : string) (v : A) (new : list (string * A)) :
  forall d,
    NoDup (map fst new) ->
    In (k, v) new ->
    assoc_get k (assoc_update d new) = Some v.
Proof.
  induction new as [| [k1 v1] new IH]; intros d Hnd Hin; [contradiction |].
  simpl in Hnd. inversion Hnd as [| ? ? Hnotin Hnd']; subst.
  destruct Hin as [E | Hin].
  - inversion E; subst.
    change (assoc_update d ((k, v) :: new))
      with (assoc_update (assoc_set k v d) new).
    rewrite assoc_update_other; [apply assoc_get_set_same |].
    intros kv Hkv E'. apply Hnotin. rewrite <- E'.
    now apply in_map.
  - change (assoc_update d ((k1, v1) :: new))
      with (assoc_update (assoc_set k1 v1 d) new).
    now apply IH.
Qed.

Lemma combine_keys_NoDup {A} (l : list string) :
  forall (l' : list A), NoDup l -> NoDup (map fst (combine l l')).
Proof.
  induction l as [| x l IH]; intros l' Hnd; [constructor |].
  destruct l' as [| y l']; [constructor |].
  inversion Hnd as [| ? ? Hnotin Hnd']; subst. simpl. constructor.
  - intros Hin. apply in_map_iff in Hin.
    destruct Hin as ([x' y'] & E & Hin). simpl in E. subst x'.
    apply Hnotin. exact (in_combine_l _ _ _ _ Hin).
  - now apply IH.
Qed.

Lemma nth_error_combine {A B} (l : list A) :
  forall (l' : list B) j x y,
    nth_error l j = Some x -> nth_error l' j = Some y ->
    In (x, y) (combine l l').
Proof.
  induction l as [| a l IH]; intros l' j x y Hx Hy.
  - destruct j; discriminate.
  - destruct l' as [| b l']; [destruct j; discriminate |].
    destruct j as [| j]; simpl in *.
    + inversion Hx; inversion Hy; subst. now left.
    + right. exact (IH l' j x y Hx Hy).
Qed.

Lemma combine_short_keys {A} (l : list string) :
  forall (l' : list A) j f,
    NoDup l -> nth_error l j = Some f -> (List.length l' <= j)%nat ->
    ~ In f (map fst (combine l l')).
Proof.
  induction l as [| a l IH]; intros l' j f Hnd Hf Hlen Hin;
    [destruct j; discriminate |].
  destruct l' as [| b l']; [contradiction |].
  inversion Hnd as [| ? ? Hnotin Hnd']; subst.
  destruct j as [| j]; simpl in *; [lia |].
  destruct Hin as [E | Hin].
  - subst a. apply Hnotin. exact (nth_error_In _ _ Hf).
  - apply (IH l' j f Hnd' Hf); [lia | exact Hin].
Qed.

(** X14.  [from_args] never lets a positional argument override a keyword:
    every keyword keeps its value; the fields no keyword names take the
    positional arguments one by one in field order; and a field that is
    left over when the positional arguments run out gets no value at all
    (the constructor then falls back on its default or refuses). *)
Theorem from_args_assignment
        {A} (fields : list string) (args : list A)
        (kwargs : list (string * A)) :
  NoDup fields ->
  let arg_fields := filter (fun f => negb (has_key f kwargs)) fields in
  let result := from_args_kwargs fields args kwargs in
  (forall k v, assoc_get k kwargs = Some v -> assoc_get k result = Some v)
  /\ (forall j f a,
         nth_error arg_fields j = Some f ->
         nth_error args j = Some a ->
         assoc_get f result = Some a)
  /\ (forall j f,
         nth_error arg_fields j = Some f ->
         (List.length args <= j)%nat ->
         assoc_get f result = None).
Proof.
  intros Hnd arg_fields result.
  assert (Hnd' : NoDup arg_fields) by now apply NoDup_filter.
  assert (Hmiss : forall f, In f arg_fields -> assoc_get f kwargs = None).
  { intros f Hf. apply filter_In in Hf. destruct Hf as [_ Hf].
    unfold has_key in Hf. now destruct (assoc_get f kwargs). }
  split; [| split].
  - intros k v Hk. unfold result, from_args_kwargs.
    rewrite assoc_update_other; [exact Hk |].
    intros [f a] Hin E. simpl in E. subst f.
    pose proof (Hmiss k (in_combine_l _ _ _ _ Hin)) as Hnone.
    congruence.
  - intros j f a Hf Ha. unfold result, from_args_kwargs.
    apply assoc_update_member.
    + now apply combine_keys_NoDup.
    + exact (nth_error_combine _ _ j f a Hf Ha).
  - intros j f Hf Hlen. unfold result, from_args_kwargs.
    rewrite assoc_update_other.
    + apply Hmiss. exact (nth_error_In _ _ Hf).
    + intros kv Hin E.
      apply (combine_short_keys arg_fields args j f Hnd' Hf Hlen).
      rewrite <- E. now apply in_map.
Qed.

Lemma from_args_assignment_witness :
  assoc_get "sigma" (from_args_kwargs ["mu"; "sigma"]%string [2%Z]
                                      [("mu"%string, 1%Z)])
  = Some 2%Z.
Proof.
  destruct (from_args_assignment ["mu"; "sigma"]%string [2%Z]
                                 [("mu"%string, 1%Z)]) as (_ & H & _).
  - repeat constructor; simpl; intuition discriminate.
  - apply (H 0%nat); reflexivity.
Defined.

(** X15.  [from_args] undoes [tuple]: rebuilding a model from the tuple of
    its field values gives the model back, for [DisributionParameters] and
    for [UnitCosts], also when the first field is passed by keyword;
    surplus positional arguments are dropped without an error; with too few
    of them [DisributionParameters] is refused with a validation error,
    while [UnitCosts] falls back on its defaults. *)
Theorem from_args_inverts_tuple :
  (forall p,
      DisributionParameters_from_args
        [fst (DisributionParameters_tuple p);
         snd (DisributionParameters_tuple p)] []
      = Ok p)
  /\ (forall p,
         DisributionParameters_from_args
           [sigma p] [("mu"%string, mu p)] = Ok p)
  /\ (forall u,
         UnitCosts_from_args
           [fst (fst (UnitCosts_tuple u)); snd (fst (UnitCosts_tuple u));
            snd (UnitCosts_tuple u)] []
         = u)
  /\ (forall m s x,
         DisributionParameters_from_args [m; s; x] []
         = Ok (mkDisributionParameters m s))
  /\ (forall m,
         DisributionParameters_from_args [m] [] = Raise ValidationError)
  /\ (forall r,
         UnitCosts_from_args [r] []
         = mkUnitCosts r (wcpu UnitCosts_default) (scpu UnitCosts_default)).
Proof.
  repeat split.
  - intros [m s]. reflexivity.
  - intros [m s]. reflexivity.
  - intros [r w s]. reflexivity.
Qed.

(** *** Serialization, whatever the state *)

Lemma filter_nothing {A} (l : list A) : filter (fun _ => false) l = [].
Proof. induction l; [reflexivity | exact IHl]. Qed.

Lemma dict_del_only_key (k : string) (l : list (string * pyval)) :
  dict_del k (filter (fun kv => String.eqb (fst kv) k || false) l) = [].
Proof.
  unfold dict_del. induction l as [| [k' v] l IH]; [reflexivity |].
  simpl. destruct (String.eqb_spec k' k) as [-> | Hne]; simpl.
  - rewrite String.eqb_refl. exact IH.
  - exact IH.
Qed.

Lemma filter_absent_key (k : string) (l : list (string * pyval)) :
  dict_get k l = None ->
  filter (fun kv => String.eqb (fst kv) k || false) l = [].
Proof.
  induction l as [| [k' v] l IH]; [reflexivity |].
  simpl. destruct (String.eqb k' k); [discriminate | exact IH].
Qed.

(** What [json] writes with [include = {"idx"}] for a treatment that holds
    [idx] once. *)
Lemma idx_members (t : Treatment) (v : pyval) :
  idx_entry t = Some v ->
  dict_get "idx" (extras t) = None ->
  filter (fun kv => existsb (String.eqb (fst kv)) ["idx"%string])
         (instance_dict t)
  = [("idx"%string, v)].
Proof.
  intros Hv He. unfold instance_dict. rewrite Hv.
  simpl app. cbn [filter fst existsb].
  rewrite String.eqb_refl. cbn [orb]. f_equal.
  rewrite !filter_app, (filter_absent_key _ _ He).
  destruct (_mu t), (_sigma t), (_demand_rvs t); reflexivity.
Qed.

(** X16.  The default serialization carries nothing of a treatment: in
    whatever state, with or without cached parameters, disruption and
    samples, [json()] is the empty object, and [from_json] makes of it a
    treatment without index and without caches.  With
    [include = {"idx"}], on a treatment whose other attributes are not
    called [idx], the index is written out if it is a value JSON can
    hold, and [from_json] then gives back a fresh treatment with that
    index, the caches dropped; if the index is a value JSON cannot hold,
    such as a class, [json] raises [TypeError]. *)
Theorem serialization_by_include (t : Treatment) :
  json t None = Ok (JsonObject [])
  /\ from_json (JsonObject []) = Ok (mkTreatment None None None [] [])
  /\ (forall v,
         idx_entry t = Some v ->
         dict_get "idx" (extras t) = None ->
         serializable v = true ->
         json t (Some ["idx"%string]) = Ok (JsonObject [("idx"%string, v)])
         /\ from_json (JsonObject [("idx"%string, v)])
            = Ok (Treatment_init v))
  /\ (forall v,
         idx_entry t = Some v ->
         dict_get "idx" (extras t) = None ->
         serializable v = false ->
         json t (Some ["idx"%string]) = Raise TypeError).
Proof.
  split.
  { unfold json. change Treatment_fields with (@nil string). simpl.
    now rewrite filter_nothing. }
  split; [reflexivity |]. split.
  - intros v Hv He Hs. split; [| reflexivity].
    unfold json. rewrite (idx_members t v Hv He).
    cbn [forallb snd]. now rewrite Hs.
  - intros v Hv He Hs.
    unfold json. rewrite (idx_members t v Hv He).
    cbn [forallb snd]. now rewrite Hs.
Qed.

Lemma serialization_by_include_witness :
  json (mkTreatment (Some (PyInt 3)) (Some 1%R) (Some 2%R) [5%R] [])
       (Some ["idx"%string])
  = Ok (JsonObject [("idx"%string, PyInt 3)])
  /\ from_json (JsonObject [("idx"%string, PyInt 3)])
     = Ok (Treatment_init (PyInt 3)).
Proof.
  destruct (serialization_by_include
              (mkTreatment (Some (PyInt 3)) (Some 1%R) (Some 2%R) [5%R] []))
    as (_ & _ & H & _).
  apply H; reflexivity.
Defined.

(** *** The template filters *)

(** X17.  [_len] is zero exactly for the falsy values: for a string, a
    list or a dictionary it is the length, for every other value it is 0 or
    1, and in all cases it is 0 if and only if the value is falsy. *)
Theorem len_zero_iff_falsy (v : pyval) :
  (_len v = 0%Z <-> py_truth v = false)
  /\ (0 <= _len v)%Z
  /\ (isiterable v = true -> py_len v = Ok (_len v))
  /\ (isiterable v = false -> _len v = 0%Z \/ _len v = 1%Z).
Proof.
  destruct v as [| b | z | r | s | l | d | c]; unfold _len; simpl;
    repeat split; try discriminate; try lia; auto.
  - destruct b; simpl; [discriminate | reflexivity].
  - destruct b; simpl; [discriminate | reflexivity].
  - destruct b; simpl; lia.
  - destruct b; simpl; auto.
  - destruct (Z.eqb_spec z 0); simpl; [reflexivity | discriminate].
  - destruct (Z.eqb_spec z 0); simpl; [reflexivity | discriminate].
  - destruct (Z.eqb z 0); simpl; lia.
  - destruct (Z.eqb z 0); simpl; auto.
  - destruct (Req_dec_T r 0); simpl; [reflexivity | discriminate].
  - destruct (Req_dec_T r 0); simpl; [reflexivity | discriminate].
  - destruct (Req_dec_T r 0); simpl; lia.
  - destruct (Req_dec_T r 0); simpl; auto.
  - destruct s; simpl; [reflexivity | lia].
  - destruct s; simpl; [reflexivity | discriminate].
  - destruct l; simpl; [reflexivity | lia].
  - destruct l; simpl; [reflexivity | discriminate].
  - destruct d; simpl; [reflexivity | lia].
  - destruct d; simpl; [reflexivity | discriminate].
Qed.

Lemma py_trunc_IZR (z : Z) : py_trunc (IZR z) = z.
Proof.
  unfold py_trunc. destruct (Rle_dec 0 (IZR z)).
  - symmetry. apply Int_part_spec. lra.
  - rewrite <- opp_IZR.
    assert (E : (- z)%Z = Int_part (IZR (- z)))
      by (apply Int_part_spec; lra).
    lia.
Qed.

Lemma integral_number (v : pyval) (a : Z) :
  integral v a ->
  exists n, as_number v = Some n
            /\ (n = NInt a \/ n = NFloat (IZR a))
            /\ py_eq_int v a = true
            /\ (forall s, v <> PyStr s) /\ (forall l, v <> PyList l).
Proof.
  intros [-> | [(b & -> & ->) | ->]]; simpl.
  - exists (NInt a). rewrite Z.eqb_refl.
    repeat split; auto; discriminate.
  - exists (NInt (if b then 1 else 0)%Z). rewrite Z.eqb_refl.
    repeat split; auto; discriminate.
  - exists (NFloat (IZR a)).
    destruct (Req_dec_T (IZR a) (IZR a)); [| contradiction].
    repeat split; auto; discriminate.
Qed.

Section FilterFacts.

Variable int_of_str : string -> option Z.
Variable float_of_str : string -> option R.
Variable round_int : Z -> option R.

Lemma integral_int (v : pyval) (a : Z) :
  integral v a -> py_int int_of_str v = Ok a.
Proof.
  intros [-> | [(b & -> & ->) | ->]]; simpl; try reflexivity.
  now rewrite py_trunc_IZR.
Qed.

Lemma float_of_int_exact (z : Z) :
  (Z.abs z <= 2 ^ 53)%Z -> float_of_int round_int z = Ok (IZR z).
Proof.
  intros H. unfold float_of_int.
  destruct (Z.leb_spec (Z.abs z) (2 ^ 53)) as [_ | Hlt]; [reflexivity | lia].
Qed.

(** A number as a float, for [float(v)] as for [v + 0.5]. *)
Lemma number_float (v : pyval) (n : number) :
  as_number v = Some n ->
  py_float float_of_str round_int v = float_of_number round_int n.
Proof.
  intros Hn.
  destruct v; simpl in Hn; try discriminate; inversion Hn; subst;
    try reflexivity.
  destruct b; simpl; rewrite float_of_int_exact by (simpl; lia);
    reflexivity.
Qed.

Lemma integral_sum (v1 v2 : pyval) (a b : Z) :
  integral v1 a -> integral v2 b ->
  (as_number v1 = Some (NInt a) /\ as_number v2 = Some (NInt b))
  \/ (Z.abs a + Z.abs b <= 2 ^ 53)%Z ->
  exists s, py_add round_int v1 v2 = Ok s /\ integral s (a + b).
Proof.
  intros H1 H2 Hexact.
  destruct (integral_number v1 a H1) as (n1 & E1 & F1 & _ & Hs1 & Hl1).
  destruct (integral_number v2 b H2) as (n2 & E2 & F2 & _ & _ & _).
  assert (E : py_add round_int v1 v2
              = match n1, n2 with
                | NInt x, NInt y => Ok (PyInt (x + y))
                | x, y =>
                    match float_of_number round_int x with
                    | Raise e => Raise e
                    | Ok r1 =>
                        match float_of_number round_int y with
                        | Raise e => Raise e
                        | Ok r2 => Ok (PyFloat (r1 + r2))
                        end
                    end
                end).
  { unfold py_add. rewrite E1, E2.
    destruct v1; try reflexivity;
      [exfalso; now apply (Hs1 s) | exfalso; now apply (Hl1 l)]. }
  rewrite E.
  destruct F1 as [-> | ->], F2 as [-> | ->].
  - eexists. split; [reflexivity |]. left. reflexivity.
  - destruct Hexact as [[_ Hb] | Hb]; [congruence |].
    simpl. rewrite float_of_int_exact by lia.
    eexists. split; [reflexivity |].
    right. right. now rewrite plus_IZR.
  - destruct Hexact as [[Ha _] | Hb]; [congruence |].
    simpl. rewrite float_of_int_exact by lia.
    eexists. split; [reflexivity |].
    right. right. now rewrite plus_IZR.
  - eexists. split; [reflexivity |].
    right. right. simpl. now rewrite plus_IZR.
Qed.

(** X18.  [add] on two numbers of integer value (ints, booleans, floats
    such as [2.0]) returns their sum as an [int], never as a float: always
    when both are ints or booleans, and when a float is among them as long
    as the absolute values add up to [2^53] at most, so that every float
    in the sum is exact. *)
Theorem add_integers (v1 v2 : pyval) (a b : Z) :
  integral v1 a ->
  integral v2 b ->
  (as_number v1 = Some (NInt a) /\ as_number v2 = Some (NInt b))
  \/ (Z.abs a + Z.abs b <= 2 ^ 53)%Z ->
  add int_of_str float_of_str round_int v1 v2 = PyInt (a + b).
Proof.
  intros H1 H2 Hexact.
  destruct (integral_number v1 a H1) as (_ & _ & _ & Q1 & _).
  destruct (integral_number v2 b H2) as (_ & _ & _ & Q2 & _).
  destruct (integral_sum v1 v2 a b H1 H2 Hexact) as (s & Es & Hs).
  unfold add, add_as_ints.
  rewrite (integral_int v1 a H1), Q1, (integral_int v2 b H2), Q2, Es.
  now rewrite (integral_int s (a + b) Hs).
Qed.

(** X19.  [add] never lets an error out: when one operand is [None], a
    dictionary or a class, whatever the other is, the result is the empty
    string. *)
Theorem add_unaddable_is_empty (u v : pyval) :
  unaddable u ->
  add int_of_str float_of_str round_int u v = PyStr ""
  /\ add int_of_str float_of_str round_int v u = PyStr "".
Proof.
  intros Hu.
  assert (Hadd : forall x, py_add round_int x u = Raise TypeError
                           /\ py_add round_int u x = Raise TypeError).
  { intros x. destruct u; try contradiction;
      destruct x as [| [] | | | | | |]; split; reflexivity. }
  assert (Hint : py_int int_of_str u = Raise TypeError)
    by (destruct u; try contradiction; reflexivity).
  assert (Hfloat : py_float float_of_str round_int u = Raise TypeError)
    by (destruct u; try contradiction; reflexivity).
  split.
  - unfold add, add_as_ints, add_as_floats.
    rewrite Hint, Hfloat, (proj2 (Hadd v)). reflexivity.
  - unfold add, add_as_ints, add_as_floats.
    rewrite Hint, Hfloat, (proj1 (Hadd v)).
    destruct (py_int int_of_str v) as [a | e]; simpl;
      [destruct (py_eq_int v a) |];
      destruct (py_float float_of_str round_int v); reflexivity.
Qed.

(** X20.  On two strings [add] first tries them as numbers: if both read
    as floats the result is the float sum, and only if one of them does
    not is it the concatenation. *)
Theorem add_strings (s t : string) :
  (forall x y,
      float_of_str s = Some x -> float_of_str t = Some y ->
      add int_of_str float_of_str round_int (PyStr s) (PyStr t)
      = PyFloat (x + y))
  /\ (float_of_str s = None \/ float_of_str t = None ->
      add int_of_str float_of_str round_int (PyStr s) (PyStr t)
      = PyStr (s ++ t)).
Proof.
  assert (Hints : match add_as_ints int_of_str round_int
                                    (PyStr s) (PyStr t) with
                  | Ok (Some _) => False
                  | _ => True
                  end).
  { unfold add_as_ints. simpl. now destruct (int_of_str s). }
  unfold add, add_as_floats.
  destruct (add_as_ints int_of_str round_int (PyStr s) (PyStr t))
    as [[v |] | e];
    try contradiction; simpl; split.
  - intros x y -> ->. reflexivity.
  - intros [-> | H]; [reflexivity |].
    destruct (float_of_str s); [rewrite H |]; reflexivity.
  - intros x y -> ->. reflexivity.
  - intros [-> | H]; [reflexivity |].
    destruct (float_of_str s); [rewrite H |]; reflexivity.
Qed.

(** With a float that is not a whole number among the operands, the first
    attempt of [add] gives nothing. *)
Lemma fractional_not_ints (r : R) (v : pyval) (n : number) :
  r <> IZR (py_trunc r) ->
  as_number v = Some n ->
  add_as_ints int_of_str round_int (PyFloat r) v = Ok None
  /\ add_as_ints int_of_str round_int v (PyFloat r) = Ok None.
Proof.
  intros Hr Hn.
  assert (Hne : py_eq_int (PyFloat r) (py_trunc r) = false).
  { simpl. destruct (Req_dec_T r (IZR (py_trunc r))); [contradiction |].
    reflexivity. }
  split.
  - unfold add_as_ints.
    change (py_int int_of_str (PyFloat r)) with (@Ok Z (py_trunc r)).
    cbv beta iota. now rewrite Hne.
  - unfold add_as_ints.
    change (py_int int_of_str (PyFloat r)) with (@Ok Z (py_trunc r)).
    assert (Hi : exists a, py_int int_of_str v = Ok a).
    { destruct v; simpl in Hn; try discriminate; eexists; reflexivity. }
    destruct Hi as (a & ->).
    destruct (py_eq_int v a); cbv beta iota; rewrite ?Hne; reflexivity.
Qed.

(** X21.  As soon as one of two numbers is a float that is not a whole
    number, [add] returns the float sum, the other number converted to a
    float: the number itself if it is a float or an [int] up to [2^53] in
    absolute value, the float next to it if it is a larger [int]; and if
    that [int] is beyond the range of floats, [add] returns the empty
    string. *)
Theorem add_fractional (r : R) (v : pyval) (n : number) :
  r <> IZR (py_trunc r) ->
  as_number v = Some n ->
  (forall x,
      float_of_number round_int n = Ok x ->
      add int_of_str float_of_str round_int (PyFloat r) v = PyFloat (r + x)
      /\ add int_of_str float_of_str round_int v (PyFloat r)
         = PyFloat (x + r))
  /\ (forall e,
         float_of_number round_int n = Raise e ->
         add int_of_str float_of_str round_int (PyFloat r) v = PyStr ""
         /\ add int_of_str float_of_str round_int v (PyFloat r) = PyStr "")
  /\ ((forall z, n = NInt z -> (Z.abs z <= 2 ^ 53)%Z) ->
      float_of_number round_int n = Ok (number_value n)).
Proof.
  intros Hr Hn.
  destruct (fractional_not_ints r v n Hr Hn) as [H1 H2].
  pose proof (number_float v n Hn) as Hf.
  assert (Hadd : py_add round_int (PyFloat r) v
                 = match float_of_number round_int n with
                   | Raise e => Raise e
                   | Ok x => Ok (PyFloat (r + x))
                   end
                 /\ py_add round_int v (PyFloat r)
                    = match float_of_number round_int n with
                      | Raise e => Raise e
                      | Ok x => Ok (PyFloat (x + r))
                      end).
  { unfold py_add. rewrite Hn.
    destruct v; simpl in Hn; try discriminate; inversion Hn; subst;
      split; reflexivity. }
  destruct Hadd as [A1 A2].
  split; [| split].
  - intros x Hx. unfold add, add_as_floats. rewrite H1, H2, Hf, Hx.
    split; reflexivity.
  - intros e He. unfold add, add_as_floats.
    rewrite H1, H2, A1, A2, Hf, He. split; reflexivity.
  - intros Hz. destruct n as [z | x]; [| reflexivity].
    simpl. apply float_of_int_exact. now apply Hz.
Qed.

End FilterFacts.

Lemma add_integers_witness :
  add (fun _ => None) (fun _ => None) (fun _ => None)
      (PyFloat 2) (PyBool true)
  = PyInt 3.
Proof.
  apply (add_integers (fun _ => None) (fun _ => None) (fun _ => None)
                      (PyFloat 2) (PyBool true) 2 1).
  - right. right. reflexivity.
  - right. left. exists true. split; reflexivity.
  - right. simpl. lia.
Defined.

Lemma add_unaddable_is_empty_witness :
  add (fun _ => None) (fun _ => None) (fun _ => None) PyNone (PyInt 1)
  = PyStr "".
Proof.
  apply (add_unaddable_is_empty
           (fun _ => None) (fun _ => None) (fun _ => None)
           PyNone (PyInt 1)).
  exact I.
Defined.

Lemma add_strings_witness :
  add (fun _ => None) (fun _ => None) (fun _ => None)
      (PyStr "a") (PyStr "b")
  = PyStr "ab".
Proof.
  apply (add_strings (fun _ => None) (fun _ => None) (fun _ => None)
                     "a" "b").
  left. reflexivity.
Defined.

Lemma half_is_fractional : (1 / 2)%R <> IZR (py_trunc (1 / 2)).
Proof.
  assert (E : py_trunc (1 / 2) = 0%Z).
  { unfold py_trunc. destruct (Rle_dec 0 (1 / 2)); [| lra].
    symmetry. apply Int_part_spec. lra. }
  rewrite E. lra.
Qed.

Lemma add_fractional_witness :
  add (fun _ => None) (fun _ => None) (fun _ => None)
      (PyFloat (1 / 2)) (PyInt 1)
  = PyFloat (1 / 2 + 1)
  /\ add (fun _ => None) (fun _ => None) (fun _ => None)
         (PyFloat (1 / 2)) (PyInt (2 ^ 1024))
     = PyStr "".
Proof.
  split.
  - destruct (add_fractional
                (fun _ => None) (fun _ => None) (fun _ => None)
                (1 / 2) (PyInt 1) (NInt 1))
      as (H & _); [exact half_is_fractional | reflexivity |].
    apply (H 1%R). reflexivity.
  - destruct (add_fractional
                (fun _ => None) (fun _ => None) (fun _ => None)
                (1 / 2) (PyInt (2 ^ 1024)) (NInt (2 ^ 1024)))
      as (_ & H & _); [exact half_is_fractional | reflexivity |].
    apply (H OverflowError). reflexivity.
Defined.

(** *** initialize_game_history *)

Lemma py_range_nth (n : Z) (j : nat) :
  (j < Z.to_nat n)%nat -> nth_error (py_range n) j = Some (Z.of_nat j).
Proof.
  intros Hj. unfold py_range.
  rewrite nth_error_map.
  rewrite (nth_error_nth' _ 0%nat) by (rewrite length_seq; exact Hj).
  now rewrite seq_nth.
Qed.

(** X22.  The game history has one row per round, none if the number of
    rounds is not positive; the row at position [k] is period [k + 1]; only
    the first row has a stock before the period, zero, and every other
    entry of every row is unset. *)
Theorem game_history_rows (rounds : Z) :
  List.length (initialize_game_history rounds) = Z.to_nat rounds
  /\ (forall k,
         (0 <= k < rounds)%Z ->
         nth_error (initialize_game_history rounds) (Z.to_nat k)
         = Some (mkHistoryRow (k + 1) None None
                              (if (k =? 0)%Z then Some 0%Z else None)
                              None None None None None None))
  /\ (forall row,
         In row (initialize_game_history rounds) ->
         (1 <= period row <= rounds)%Z
         /\ (su_before row = Some 0%Z <-> period row = 1%Z)
         /\ ou row = None /\ du row = None /\ su_after row = None
         /\ ooq row = None /\ revenue row = None /\ cost row = None
         /\ profit row = None /\ cumulative_profit row = None).
Proof.
  unfold initialize_game_history. split; [| split].
  - unfold py_range. now rewrite !length_map, length_seq.
  - intros k Hk. rewrite nth_error_map, py_range_nth by lia.
    simpl. now rewrite Z2Nat.id by lia.
  - intros row Hin. apply in_map_iff in Hin.
    destruct Hin as (i & <- & Hi).
    unfold py_range in Hi. apply in_map_iff in Hi.
    destruct Hi as (j & <- & Hj). apply in_seq in Hj. simpl.
    repeat split; try lia.
    + destruct (Z.eqb_spec (Z.of_nat j) 0); [lia | discriminate].
    + intros H. destruct (Z.eqb_spec (Z.of_nat j) 0); [reflexivity | lia].
Qed.

Lemma game_history_rows_witness :
  nth_error (initialize_game_history 3) 1
  = Some (mkHistoryRow 2 None None None None None None None None None).
Proof.
  destruct (game_history_rows 3) as (_ & H & _).
  apply (H 1%Z). lia.
Defined.

(** *** Successive draws *)

(** A drawing call without disruption, spelled out. *)
Lemma demand_draw_plain
      (n : Z) (w w1 : world) (p : DisributionParameters) :
  (0 < n)%Z ->
  Z.of_nat (List.length (_demand_rvs (self w))) <> n ->
  get_distribution_parameters w = (Ok p, w1) ->
  (0 <= sigma p)%R ->
  np_empty (np_random w) n = Allocated ->
  get_demand_rvs (PyInt n) false w
  = (Ok (lognormal_samples (variates (np_random w)) (mu p) (sigma p) n),
     with_samples
       (lognormal_samples (variates (np_random w)) (mu p) (sigma p) n) n
       (with_sigma (sigma p) w1)).
Proof.
  intros Hn Hlen Hp Hs Hmem.
  assert (Hv : valid_size (PyInt n) = true) by (simpl; lia).
  assert (Hearly :
            (Z.of_nat (List.length (_demand_rvs (self w)))
             =? resolved_size (PyInt n))%Z && negb false = false).
  { simpl. apply andb_false_intro1. now apply Z.eqb_neq. }
  destruct (parameters_returned w w1 p Hp) as (_ & _ & _ & Hg).
  pose proof (demand_draw (PyInt n) false w w1 p Hv Hearly Hp) as D.
  simpl in D. rewrite Hg, Hmem in D.
  destruct (Rlt_dec (sigma p) 0) as [Hneg | _]; [lra |].
  exact D.
Qed.

(** X23.  Two draws of different sizes in a row, without disruption, of
    sizes numpy can allocate, use the same parameters and successive
    stretches of the generator: the first takes the next [m] variates, the
    second the [n] after those, so no variate is used twice. *)
Theorem successive_draws_use_successive_variates
        (w : world) (m n : Z) :
  valid_treatment (self w) ->
  (0 < m)%Z -> (0 < n)%Z -> m <> n ->
  Z.of_nat (List.length (_demand_rvs (self w))) <> m ->
  np_empty (np_random w) m = Allocated ->
  np_empty (np_random w) n = Allocated ->
  exists p w1 w2 w3,
    get_distribution_parameters w = (Ok p, w1)
    /\ get_demand_rvs (PyInt m) false w
       = (Ok (lognormal_samples (variates (np_random w))
                                (mu p) (sigma p) m), w2)
    /\ get_demand_rvs (PyInt n) false w2
       = (Ok (lognormal_samples
                (fun k => variates (np_random w) (Z.to_nat m + k)%nat)
                (mu p) (sigma p) n), w3)
    /\ (forall k,
           variates (np_random w3) k
           = variates (np_random w) (Z.to_nat m + (Z.to_nat n + k))%nat).
Proof.
  intros Hvalid Hm Hn Hne Hlen Hmem1 Hmem2.
  destruct (parameters_available w Hvalid) as (p & w1 & Hp & Hs).
  destruct (parameters_returned w w1 p Hp) as ([Hmu Hsig] & _ & _ & Hg).
  pose proof (demand_draw_plain m w w1 p Hm Hlen Hp Hs Hmem1) as D1.
  set (l1 := lognormal_samples (variates (np_random w))
                               (mu p) (sigma p) m) in *.
  set (w2 := with_samples l1 m (with_sigma (sigma p) w1)) in *.
  assert (Hc2 : cached (mu p) (sigma p) w2)
    by (split; [exact Hmu | reflexivity]).
  assert (Hp2 : get_distribution_parameters w2 = (Ok p, w2)).
  { rewrite (parameters_cached _ _ w2 Hc2). now destruct p. }
  assert (Hlen2 : Z.of_nat (List.length (_demand_rvs (self w2))) <> n).
  { simpl. unfold l1. rewrite lognormal_samples_length; lia. }
  assert (Hmem2' : np_empty (np_random w2) n = Allocated).
  { simpl. rewrite Hg. exact Hmem2. }
  pose proof (demand_draw_plain n w2 w2 p Hn Hlen2 Hp2 Hs Hmem2') as D2.
  exists p, w1, w2. eexists.
  split; [exact Hp |]. split; [exact D1 |]. split.
  - rewrite D2. simpl. rewrite Hg. reflexivity.
  - intros k. simpl. now rewrite Hg.
Qed.

Lemma successive_draws_use_successive_variates_witness :
  exists p w1 w2 w3,
    get_distribution_parameters (fresh 0 (numpy_with (fun k => INR k)))
    = (Ok p, w1)
    /\ get_demand_rvs (PyInt 2) false
                      (fresh 0 (numpy_with (fun k => INR k)))
       = (Ok (lognormal_samples (fun k => INR k) (mu p) (sigma p) 2), w2)
    /\ get_demand_rvs (PyInt 3) false w2
       = (Ok (lognormal_samples
                (fun k => INR (Z.to_nat 2 + k)) (mu p) (sigma p) 3), w3).
Proof.
  destruct (successive_draws_use_successive_variates
              (fresh 0 (numpy_with (fun k => INR k))) 2 3)
    as (p & w1 & w2 & w3 & Hp & D1 & D2 & _).
  - split.
    + exists 0%Z. split; [reflexivity | lia].
    + intros s E. discriminate.
  - lia.
  - lia.
  - lia.
  - simpl. lia.
  - reflexivity.
  - reflexivity.
  - exists p, w1, w2, w3. split; [exact Hp |]. split; [exact D1 | exact D2].
Defined.

Lemma len_zero_iff_falsy_witness :
  py_len (PyStr "ab") = Ok (_len (PyStr "ab"))
  /\ (_len (PyList []) = 0%Z <-> py_truth (PyList []) = false).
Proof.
  destruct (len_zero_iff_falsy (PyStr "ab")) as (_ & _ & H & _).
  destruct (len_zero_iff_falsy (PyList [])) as (H0 & _).
  split; [apply H; reflexivity | exact H0].
Defined.
